(** * GPIO driver for the NCT610XD Super-I/O chip: model and properties

    A shallow embedding of [gpio-nct610xd.c].  Port I/O ([outb]/[inb]), the
    I/O-region resource tree ([request_muxed_region]/[release_region]) and the
    platform-bus calls are the kernel's; they are modelled as operations on an
    explicit [world] that also records every call in a trace.  The driver's
    own functions are transcribed statement by statement in a state monad
    over that world.

    Log lines ([pr_err], [pr_info], [dev_err]) touch neither ports, regions
    nor results and are left out, except for the one whose argument does
    port I/O: the second [superio_inw] of [nct610xd_find].  The probe
    callback and the module exit function are not needed below. *)

From Stdlib Require Import ZArith List Lia Bool.
From stdpp Require Import base decidable numbers functions list sets gmap.

Local Open Scope Z_scope.

(** ** C integer types *)

Definition u8 (x : Z) : Z := x mod 2 ^ 8.
Definition u16 (x : Z) : Z := x mod 2 ^ 16.
Definition u32 (x : Z) : Z := x mod 2 ^ 32.
(** [int]: two's-complement wrap-around to 32 bits. *)
Definition s32 (x : Z) : Z := (x + 2 ^ 31) mod 2 ^ 32 - 2 ^ 31.

(** [1 << offset] in [int].  C defines it for [offset < 31]; the kernel's
    compiler flags give [INT_MIN] at 31.  gpiolib only passes
    [offset < ngpio = 8]. *)
Definition shl1 (offset : Z) : Z := s32 (Z.shiftl 1 offset).

(** ** Constants of the source *)

Definition SIO_SOFT_RESET : Z := 0x02.
Definition SIO_LDSEL : Z := 0x07.
Definition SIO_CHIPID : Z := 0x20.
Definition SIO_GPIO_ENABLE : Z := 0x30.
Definition SIO_LD_GPIO : Z := 0x07.
Definition SIO_UNLOCK_KEY : Z := 0x87.
Definition SIO_LOCK_KEY : Z := 0xAA.
Definition SIO_NCT610XD_ID : Z := 0xd282.

(** errno values of the kernel *)
Definition EPERM : Z := 1.
Definition ENOMEM : Z := 12.
Definition EBUSY : Z := 16.
Definition ENODEV : Z := 19.

Inductive chips : Type := nct610xd.

Record nct610xd_sio : Type := Sio { addr : Z; type : chips }.

Record nct610xd_gpio_data : Type := GpioData { sio : nct610xd_sio; nr_bank : Z }.

(** [chip_base] and [chip_ngpio] are the [.base] and [.ngpio] fields of the
    embedded [struct gpio_chip]; the callbacks of that struct are the five
    functions below. *)
Record nct610xd_gpio_bank : Type := GpioBank {
  chip_base : Z;
  chip_ngpio : Z;
  regbase : Z;
  data : nct610xd_gpio_data
}.

Definition NCT610XD_GPIO_BANK (_base _ngpio _regbase : Z)
    (d : nct610xd_gpio_data) : nct610xd_gpio_bank :=
  {| chip_base := _base; chip_ngpio := _ngpio; regbase := _regbase; data := d |}.

(** [gpio_dir] and [gpio_data] on the [unsigned int] field [regbase]. *)
Definition gpio_dir (base : Z) : Z := u32 (base + 0).
Definition gpio_data (base : Z) : Z := u32 (base + 1).

(** The static table [nct610xd_gpio_bank[]]; [d] is the back pointer the
    probe function stores into each entry. *)
Definition nct610xd_gpio_bank_table (d : nct610xd_gpio_data)
    : list nct610xd_gpio_bank :=
  [NCT610XD_GPIO_BANK 40 8 0xF0 d].

(** ** The world the driver runs in *)

(** What the kernel and the bus see, in program order. *)
Inductive event : Type :=
  | EvOutb (value port : Z)
  | EvInb (port value : Z)
  | EvRequest (start n : Z) (ok : bool)
  | EvRelease (start n : Z)
  | EvDriverRegister (err : Z)
  | EvDriverUnregister
  | EvDeviceAlloc (ok : bool)
  | EvDeviceAddData (s : nct610xd_sio) (err : Z)
  | EvDeviceAdd (err : Z)
  | EvDevicePut.

(** The hardware behind the port instructions: any state type with a
    reaction to a byte written to a port and to a byte read from one. *)
Class PortBus (H : Type) : Type := {
  bus_outb : Z -> Z -> H -> H;
  bus_inb : Z -> H -> Z * H
}.

(** The results the platform bus will give to [nct610xd_gpio_init]. *)
Record platform : Type := Platform {
  driver_register_result : Z;
  device_alloc_ok : bool;
  device_add_data_result : Z;
  device_add_result : Z
}.

(** The ports [start .. start + n - 1] of an I/O region. *)
Definition region (start n : Z) : gset Z := list_to_set (seqZ start n).

Section Driver.

Context {HW : Type} {PB : PortBus HW}.

Record world : Type := World {
  hw : HW;
  held : gset Z;
  plat : platform;
  trace : list event
}.

Definition log (e : event) (w : world) : world :=
  {| hw := hw w; held := held w; plat := plat w; trace := trace w ++ [e] |}.

Definition set_hw (h : HW) (w : world) : world :=
  {| hw := h; held := held w; plat := plat w; trace := trace w |}.

Definition set_held (s : gset Z) (w : world) : world :=
  {| hw := hw w; held := s; plat := plat w; trace := trace w |}.

(** State monad over the world. *)
Definition M (A : Type) : Type := world -> A * world.

Definition ret {A : Type} (a : A) : M A := fun w => (a, w).

Definition bind {A B : Type} (m : M A) (f : A -> M B) : M B :=
  fun w => let (a, w') := m w in f a w'.

Notation "x <- m ;; k" := (bind m (fun x => k))
  (at level 100, m at level 99, k at level 200, right associativity).
Notation "m ;;; k" := (bind m (fun _ => k))
  (at level 100, k at level 200, right associativity).

(** *** Kernel primitives *)

(** [outb(u8 value, u16 port)] *)
Definition outb (value port : Z) : M unit := fun w =>
  (tt, log (EvOutb (u8 value) (u16 port))
         (set_hw (bus_outb (u8 value) (u16 port) (hw w)) w)).

(** [u8 inb(u16 port)] *)
Definition inb (port : Z) : M Z := fun w =>
  let v := u8 (fst (bus_inb (u16 port) (hw w))) in
  (v, log (EvInb (u16 port) v)
        (set_hw (snd (bus_inb (u16 port) (hw w))) w)).

(** [request_muxed_region(start, n, name)]: the region is granted when none
    of its ports is held; [true] stands for the non-NULL resource. *)
Definition request_muxed_region (start n : Z) : M bool := fun w =>
  if decide (region start n ## held w)
  then (true, log (EvRequest start n true)
                (set_held (held w ∪ region start n) w))
  else (false, log (EvRequest start n false) w).

Definition release_region (start n : Z) : M unit := fun w =>
  (tt, log (EvRelease start n) (set_held (held w ∖ region start n) w)).

(** *** Super-I/O functions *)

Definition superio_inb (base reg : Z) : M Z :=
  outb reg base ;;;
  inb (s32 (base + 1)).

Definition superio_inw (base reg : Z) : M Z :=
  outb reg base ;;;
  hi <- inb (s32 (base + 1)) ;;
  let val := s32 (Z.shiftl hi 8) in
  outb (s32 (reg + 1)) base ;;;
  lo <- inb (s32 (base + 1)) ;;
  ret (Z.lor val lo).

Definition superio_outb (base reg val : Z) : M unit :=
  outb reg base ;;;
  outb val (s32 (base + 1)).

Definition superio_enter (base : Z) : M Z :=
  ok <- request_muxed_region base 2 ;;
  if negb ok then ret (- EBUSY)
  else
    outb SIO_UNLOCK_KEY base ;;;
    outb SIO_UNLOCK_KEY base ;;;
    ret 0.

Definition superio_select (base ld : Z) : M unit :=
  outb SIO_LDSEL base ;;;
  outb ld (s32 (base + 1)).

Definition superio_exit (base : Z) : M unit :=
  outb SIO_LOCK_KEY base ;;;
  release_region base 2.

(** *** GPIO chip callbacks *)

Definition nct610xd_gpio_get_direction (bank : nct610xd_gpio_bank)
    (offset : Z) : M Z :=
  let s := sio (data bank) in
  err <- superio_enter (addr s) ;;
  if negb (err =? 0) then ret err
  else
    superio_select (addr s) SIO_LD_GPIO ;;;
    v <- superio_inb (addr s) (s32 (gpio_dir (regbase bank))) ;;
    let dir := u8 v in
    superio_exit (addr s) ;;;
    ret (Z.land dir (shl1 offset)).

Definition nct610xd_gpio_direction_in (bank : nct610xd_gpio_bank)
    (offset : Z) : M Z :=
  let s := sio (data bank) in
  err <- superio_enter (addr s) ;;
  if negb (err =? 0) then ret err
  else
    superio_select (addr s) SIO_LD_GPIO ;;;
    v <- superio_inb (addr s) (s32 (gpio_dir (regbase bank))) ;;
    let dir := u8 v in
    let dir := u8 (Z.lor dir (shl1 offset)) in
    superio_outb (addr s) (s32 (gpio_dir (regbase bank))) dir ;;;
    superio_exit (addr s) ;;;
    ret 0.

Definition nct610xd_gpio_get (bank : nct610xd_gpio_bank) (offset : Z) : M Z :=
  let s := sio (data bank) in
  err <- superio_enter (addr s) ;;
  if negb (err =? 0) then ret err
  else
    superio_select (addr s) SIO_LD_GPIO ;;;
    v <- superio_inb (addr s) (s32 (gpio_data (regbase bank))) ;;
    let data := u8 v in
    superio_exit (addr s) ;;;
    ret (if Z.land data (shl1 offset) =? 0 then 0 else 1).

(** The read-modify-write of one data bit shared by
    [nct610xd_gpio_direction_out] and [nct610xd_gpio_set]:
    [if (value) data_out |= (1 << offset); else data_out &= ~(1 << offset);]
    on a [u8]. *)
Definition put_bit (data_out offset value : Z) : Z :=
  if negb (value =? 0)
  then u8 (Z.lor data_out (shl1 offset))
  else u8 (Z.land data_out (Z.lnot (shl1 offset))).

Definition nct610xd_gpio_direction_out (bank : nct610xd_gpio_bank)
    (offset value : Z) : M Z :=
  let s := sio (data bank) in
  err <- superio_enter (addr s) ;;
  if negb (err =? 0) then ret err
  else
    superio_select (addr s) SIO_LD_GPIO ;;;
    v <- superio_inb (addr s) (s32 (gpio_data (regbase bank))) ;;
    let data_out := put_bit (u8 v) offset value in
    superio_outb (addr s) (s32 (gpio_data (regbase bank))) data_out ;;;
    v <- superio_inb (addr s) (s32 (gpio_dir (regbase bank))) ;;
    let dir := u8 v in
    let dir := u8 (Z.land dir (Z.lnot (shl1 offset))) in
    superio_outb (addr s) (s32 (gpio_dir (regbase bank))) dir ;;;
    superio_exit (addr s) ;;;
    ret 0.

(** [void]: the callback has no result to give. *)
Definition nct610xd_gpio_set (bank : nct610xd_gpio_bank)
    (offset value : Z) : M unit :=
  let s := sio (data bank) in
  err <- superio_enter (addr s) ;;
  if negb (err =? 0) then ret tt
  else
    superio_select (addr s) SIO_LD_GPIO ;;;
    v <- superio_inb (addr s) (s32 (gpio_data (regbase bank))) ;;
    let data_out := put_bit (u8 v) offset value in
    superio_outb (addr s) (s32 (gpio_data (regbase bank))) data_out ;;;
    superio_exit (addr s).

(** *** Discovery and module initialisation *)

(** [sio] is the caller's struct, written through the pointer; the result
    pairs the return value with its final contents. *)
Definition nct610xd_find (a : Z) (s : nct610xd_sio)
    : M (Z * nct610xd_sio) :=
  err <- superio_enter a ;;
  if negb (err =? 0) then ret (err, s)
  else
    let err := - ENODEV in
    v <- superio_inw a SIO_CHIPID ;;
    let devid := u16 v in
    if devid =? SIO_NCT610XD_ID then
      let s := {| addr := addr s; type := nct610xd |} in
      let s := {| addr := a; type := type s |} in
      (* the chip id is read once more for the log line *)
      _ <- superio_inw a SIO_CHIPID ;;
      superio_select a SIO_LD_GPIO ;;;
      v <- superio_inb a SIO_GPIO_ENABLE ;;
      let gpio_cfg := u8 v in
      let gpio_cfg := u8 (Z.lor gpio_cfg 0x10) in
      superio_outb a SIO_GPIO_ENABLE gpio_cfg ;;;
      v <- superio_inb a SIO_GPIO_ENABLE ;;
      let gpio_cfg := u8 v in
      if Z.land gpio_cfg 0x10 =? 0 then
        let err := EPERM in
        superio_exit a ;;;
        ret (err, s)
      else
        let err := 0 in
        superio_exit a ;;;
        ret (err, s)
    else
      superio_exit a ;;;
      ret (err, s).

Definition platform_driver_register : M Z := fun w =>
  let err := driver_register_result (plat w) in
  (err, log (EvDriverRegister err) w).

Definition platform_driver_unregister : M unit := fun w =>
  (tt, log EvDriverUnregister w).

Definition platform_device_alloc : M bool := fun w =>
  let ok := device_alloc_ok (plat w) in
  (ok, log (EvDeviceAlloc ok) w).

Definition platform_device_add_data (s : nct610xd_sio) : M Z := fun w =>
  let err := device_add_data_result (plat w) in
  (err, log (EvDeviceAddData s err) w).

Definition platform_device_add : M Z := fun w =>
  let err := device_add_result (plat w) in
  (err, log (EvDeviceAdd err) w).

Definition platform_device_put : M unit := fun w =>
  (tt, log EvDevicePut w).

Definition nct610xd_gpio_device_add (s : nct610xd_sio) : M Z :=
  ok <- platform_device_alloc ;;
  if negb ok then ret (- ENOMEM)
  else
    err <- platform_device_add_data s ;;
    if negb (err =? 0) then platform_device_put ;;; ret err
    else
      err <- platform_device_add ;;
      if negb (err =? 0) then platform_device_put ;;; ret err
      else ret 0.

(** What [nct610xd_gpio_init] does once a chip is found. *)
Definition register_driver_and_device (s : nct610xd_sio) : M Z :=
  err <- platform_driver_register ;;
  if err =? 0 then
    err <- nct610xd_gpio_device_add s ;;
    (if negb (err =? 0) then platform_driver_unregister else ret tt) ;;;
    ret err
  else ret err.

(** [sio0] is the uninitialised local [struct nct610xd_sio sio].  The [&&]
    runs the second [nct610xd_find] only when the first returned nonzero. *)
Definition nct610xd_gpio_init (sio0 : nct610xd_sio) : M Z :=
  r1 <- nct610xd_find 0x2e sio0 ;;
  if negb (fst r1 =? 0) then
    r2 <- nct610xd_find 0x4e (snd r1) ;;
    if negb (fst r2 =? 0) then ret (- ENODEV)
    else register_driver_and_device (snd r2)
  else register_driver_and_device (snd r1).

End Driver.

Arguments world HW : clear implicits.
Arguments M HW A : clear implicits.

(** ** Register transactions as they appear in the trace *)

Definition enter_events (a : Z) : list event :=
  [EvRequest a 2 true;
   EvOutb SIO_UNLOCK_KEY (u16 a); EvOutb SIO_UNLOCK_KEY (u16 a)].

Definition exit_events (a : Z) : list event :=
  [EvOutb SIO_LOCK_KEY (u16 a); EvRelease a 2].

(** Reading byte [v] from register [reg]. *)
Definition read_events (a reg v : Z) : list event :=
  [EvOutb (u8 reg) (u16 a); EvInb (u16 (a + 1)) v].

(** Writing byte [v] to register [reg]. *)
Definition write_events (a reg v : Z) : list event :=
  [EvOutb (u8 reg) (u16 a); EvOutb (u8 v) (u16 (a + 1))].

Definition select_events (a ld : Z) : list event :=
  write_events a SIO_LDSEL ld.

Definition is_port_io (e : event) : bool :=
  match e with
  | EvOutb _ _ | EvInb _ _ => true
  | _ => false
  end.

(** The 16-bit identifier assembled by [superio_inw] from two bytes and
    stored into the [u16 devid]. *)
Definition chip_id (hi lo : Z) : Z := u16 (Z.lor (s32 (Z.shiftl hi 8)) lo).

(** ** A simulated Super-I/O chip

    One chip decoded at the port pair [hw_base] (index) and [hw_base + 1]
    (data): a byte written to the index port is latched; the data port reads
    and writes the register the latch names.  A register in [rdonly] ignores
    writes; every other register returns the last byte written to it.  No
    other port is decoded: writes are dropped and reads float high. *)

Record sio_chip : Type := SioChip {
  hw_base : Z;
  latch : Z;
  regfile : Z -> Z;
  rdonly : gset Z
}.

(** The register file after byte [v] arrives on the data port. *)
Definition chip_write (v : Z) (c : sio_chip) : Z -> Z :=
  if decide (latch c ∈ rdonly c) then regfile c
  else <[latch c := v]> (regfile c).

Definition chip_outb (v p : Z) (c : sio_chip) : sio_chip :=
  if p =? hw_base c then
    {| hw_base := hw_base c; latch := v; regfile := regfile c;
       rdonly := rdonly c |}
  else if p =? u16 (hw_base c + 1) then
    {| hw_base := hw_base c; latch := latch c;
       regfile := chip_write v c; rdonly := rdonly c |}
  else c.

Definition chip_inb (p : Z) (c : sio_chip) : Z * sio_chip :=
  if p =? u16 (hw_base c + 1) then (regfile c (latch c), c) else (0xFF, c).

#[global] Instance sio_chip_bus : PortBus sio_chip :=
  {| bus_outb := chip_outb; bus_inb := chip_inb |}.

(** A chip at [base] whose identification registers 0x20/0x21 hold [id];
    the registers in [ro] are read-only and every register other than the
    identification starts at [init]. *)
Definition chip_with_id (base id : Z) (ro : gset Z) (init : Z) : sio_chip :=
  {| hw_base := base; latch := 0;
     regfile := <[0x20 := Z.shiftr id 8]> (<[0x21 := Z.land id 0xFF]> (fun _ => init));
     rdonly := ro |}.

(** A platform bus on which every registration succeeds. *)
Definition platform_ok : platform :=
  {| driver_register_result := 0; device_alloc_ok := true;
     device_add_data_result := 0; device_add_result := 0 |}.

(** The world at boot: no region held, nothing traced yet. *)
Definition boot {HW : Type} (h : HW) : world HW :=
  {| hw := h; held := ∅; plat := platform_ok; trace := [] |}.

(** The configured bank, behind a chip found at [a]. *)
Definition bank0 (a : Z) : nct610xd_gpio_bank :=
  NCT610XD_GPIO_BANK 40 8 0xF0
    {| sio := {| addr := a; type := nct610xd |}; nr_bank := 1 |}.

(** A world in which somebody else holds the ports of [a]. *)
Definition boot_busy {HW : Type} (h : HW) (a : Z) : world HW :=
  {| hw := h; held := region a 2; plat := platform_ok; trace := [] |}.

(** An NCT610XD at 0x2e with all registers writable and zero at power-on. *)
Definition chip0 : sio_chip := chip_with_id 0x2e 0xd282 ∅ 0.

(** The same chip with a GPIO-enable register 0x30 that ignores writes. *)
Definition chip_stuck : sio_chip := chip_with_id 0x2e 0xd282 {[ 0x30 ]} 0.

(** The uninitialised [struct nct610xd_sio] of [nct610xd_gpio_init]. *)
Definition sio_garbage : nct610xd_sio := {| addr := 0; type := nct610xd |}.


(** The events of [nct610xd_find] between entering and leaving, on a chip
    whose identifier matched: the second identifier read made for the log
    line, then the enabling of GPIO port 4 and its verification. *)
Definition enable_events (a hi2 lo2 cfg cfg2 : Z) : list event :=
  read_events a SIO_CHIPID hi2 ++ read_events a (SIO_CHIPID + 1) lo2
    ++ select_events a SIO_LD_GPIO
    ++ read_events a SIO_GPIO_ENABLE cfg
    ++ write_events a SIO_GPIO_ENABLE (u8 (Z.lor cfg 0x10))
    ++ read_events a SIO_GPIO_ENABLE cfg2.

Definition is_platform_event (e : event) : bool :=
  match e with
  | EvDriverRegister _ | EvDriverUnregister | EvDeviceAlloc _
  | EvDeviceAddData _ _ | EvDeviceAdd _ | EvDevicePut => true
  | _ => false
  end.

Section Vocabulary.

Context {HW : Type} {PB : PortBus HW}.

(** The world right after a successful [superio_enter]. *)
Definition entered (a : Z) (w : world HW) : world HW :=
  {| hw := bus_outb (u8 SIO_UNLOCK_KEY) (u16 a)
             (bus_outb (u8 SIO_UNLOCK_KEY) (u16 a) (hw w));
     held := held w ∪ region a 2;
     plat := plat w;
     trace := trace w ++ enter_events a |}.

(** Between [w] and [w'] one session on the window at [a] was opened and
    closed again: the trace grew by the unlock sequence, port accesses only,
    then the lock key and the release; the set of held ports is back to
    what it was. *)
Definition session_closed (a : Z) (w w' : world HW) : Prop :=
  held w' = held w /\
  exists mid, forallb is_port_io mid = true /\
    trace w' = trace w ++ enter_events a ++ mid ++ exit_events a.

(** The result of [op] tells its caller whether [superio_enter a] failed:
    no result of a run in which it failed is also the result of a run in
    which it succeeded. *)
Definition reports_enter_failure {R : Type} (a : Z) (op : M HW R) : Prop :=
  forall w_busy w_ok : world HW,
    fst (superio_enter a w_busy) = - EBUSY ->
    fst (superio_enter a w_ok) = 0 ->
    fst (op w_busy) <> fst (op w_ok).

End Vocabulary.

(** ** The platform probe

    [nct610xd_gpio_probe] does no port I/O.  What it asks of the kernel is
    given by a [probe_env]: whether [devm_kzalloc] returns memory, and the
    result of the [i]-th [devm_gpiochip_add_data].  What it leaves behind is a
    [probe_state]: the driver data set with [platform_set_drvdata] and the
    banks handed to gpiolib, in order.  The [parent] pointer stored in each
    chip has no counterpart in [nct610xd_gpio_bank] and is left out. *)

Record probe_env : Type := ProbeEnv {
  kzalloc_ok : bool;
  gpiochip_add_result : nat -> Z
}.

(** The platform data as the probe reads it from memory: [type] is the [int]
    behind the [enum chips] field and may hold a value that names no chip. *)
Record sio_platdata : Type := SioPlatdata {
  pd_addr : Z;
  pd_type : Z
}.

(** The value of an enumerator of [enum chips]. *)
Definition chips_value (c : chips) : Z :=
  match c with
  | nct610xd => 0
  end.

Record probe_state : Type := ProbeState {
  drvdata : option nct610xd_gpio_data;
  gpiochips : list nct610xd_gpio_bank
}.

(** [bank->data = data;] *)
Definition set_bank_data (d : nct610xd_gpio_data) (b : nct610xd_gpio_bank)
    : nct610xd_gpio_bank :=
  {| chip_base := chip_base b; chip_ngpio := chip_ngpio b;
     regbase := regbase b; data := d |}.

(** The loop [for (i = 0; i < data->nr_bank; i++)] from index [i] on, over
    the banks not yet visited; [done] are the chips registered so far. *)
Fixpoint probe_banks (env : probe_env) (d : nct610xd_gpio_data) (i : nat)
    (banks done : list nct610xd_gpio_bank) : Z * list nct610xd_gpio_bank :=
  match banks with
  | [] => (0, done)
  | bank :: rest =>
      let bank := set_bank_data d bank in
      let err := gpiochip_add_result env i in
      if negb (err =? 0) then (err, done)
      else probe_banks env d (S i) rest (done ++ [bank])
  end.

(** [platdata] is what [dev_get_platdata] returns; [table] is the static
    array [nct610xd_gpio_bank[]] as the probe finds it.  The [switch] on
    [sio->type] has the one case [nct610xd]; any other value takes the
    [default] and returns [-ENODEV] before the driver data is set. *)
Definition nct610xd_gpio_probe (env : probe_env) (platdata : sio_platdata)
    (table : list nct610xd_gpio_bank) : Z * probe_state :=
  if negb (kzalloc_ok env) then
    (- ENOMEM, {| drvdata := None; gpiochips := [] |})
  else if pd_type platdata =? chips_value nct610xd then
    let d := {| sio := {| addr := pd_addr platdata; type := nct610xd |};
                nr_bank := Z.of_nat (length table) |} in
    let r := probe_banks env d 0 table [] in
    (fst r, {| drvdata := Some d; gpiochips := snd r |})
  else
    (- ENODEV, {| drvdata := None; gpiochips := [] |}).

(** ** Further vocabulary *)

(** The event concerns the window at [a]: a port access on its index or data
    port, or a request or release of exactly its two ports. *)
Definition event_in_window (a : Z) (e : event) : Prop :=
  match e with
  | EvOutb _ p | EvInb p _ => p = u16 a \/ p = u16 (a + 1)
  | EvRequest s n _ | EvRelease s n => s = a /\ n = 2
  | _ => False
  end.

(** The event is one [nct610xd_gpio_init] may cause: something on one of the
    two candidate windows, or a call to the platform bus. *)
Definition init_event (e : event) : Prop :=
  event_in_window 0x2e e \/ event_in_window 0x4e e \/
  is_platform_event e = true.

(** ** Wrap-around arithmetic *)

Lemma u8_range (x : Z) : 0 <= u8 x < 256.
Proof. unfold u8. apply Z.mod_pos_bound. lia. Qed.

Lemma u8_small (x : Z) : 0 <= x < 256 -> u8 x = x.
Proof. intros Hx. unfold u8. apply Z.mod_small. lia. Qed.

Lemma u8_idem (x : Z) : u8 (u8 x) = u8 x.
Proof. apply u8_small, u8_range. Qed.

Lemma s32_wrap (x : Z) : exists q, s32 x = x + q * 2 ^ 32.
Proof.
  exists (- ((x + 2 ^ 31) / 2 ^ 32)). unfold s32.
  rewrite (Z.mod_eq (x + 2 ^ 31) (2 ^ 32)) by lia. lia.
Qed.

Lemma u32_wrap (x : Z) : exists q, u32 x = x + q * 2 ^ 32.
Proof.
  exists (- (x / 2 ^ 32)). unfold u32.
  rewrite (Z.mod_eq x (2 ^ 32)) by lia. lia.
Qed.

Lemma u8_s32 (x : Z) : u8 (s32 x) = u8 x.
Proof.
  destruct (s32_wrap x) as [q ->]. unfold u8.
  replace (x + q * 2 ^ 32) with (x + (q * 2 ^ 24) * 2 ^ 8) by lia.
  apply Z_mod_plus_full.
Qed.

Lemma u8_u32 (x : Z) : u8 (u32 x) = u8 x.
Proof.
  destruct (u32_wrap x) as [q ->]. unfold u8.
  replace (x + q * 2 ^ 32) with (x + (q * 2 ^ 24) * 2 ^ 8) by lia.
  apply Z_mod_plus_full.
Qed.

Lemma u16_s32 (x : Z) : u16 (s32 x) = u16 x.
Proof.
  destruct (s32_wrap x) as [q ->]. unfold u16.
  replace (x + q * 2 ^ 32) with (x + (q * 2 ^ 16) * 2 ^ 16) by lia.
  apply Z_mod_plus_full.
Qed.

Lemma s32_small (x : Z) : - 2 ^ 31 <= x < 2 ^ 31 -> s32 x = x.
Proof. intros Hx. unfold s32. rewrite Z.mod_small; lia. Qed.

(** For a pin of an 8-pin bank the shift does not wrap. *)
Lemma shl1_pin (offset : Z) : 0 <= offset < 8 -> shl1 offset = 2 ^ offset.
Proof.
  intros Ho. unfold shl1. rewrite Z.shiftl_1_l. apply s32_small.
  assert (0 < 2 ^ offset) by (apply Z.pow_pos_nonneg; lia).
  assert (2 ^ offset <= 2 ^ 7) by (apply Z.pow_le_mono_r; lia).
  lia.
Qed.

Lemma u8_testbit (x i : Z) :
  Z.testbit (u8 x) i = (i <? 8) && Z.testbit x i.
Proof.
  unfold u8. destruct (Z.ltb_spec i 8) as [Hi | Hi]; simpl.
  - destruct (Z.neg_nonneg_cases i) as [Hn | Hn].
    + now rewrite !Z.testbit_neg_r.
    + apply Z.mod_pow2_bits_low. lia.
  - apply Z.mod_pow2_bits_high. lia.
Qed.

(** The data-port address seen on the bus. *)
Lemma data_port_eq (base : Z) : u16 (s32 (base + 1)) = u16 (base + 1).
Proof. apply u16_s32. Qed.

(** The register index seen on the bus for a bank register. *)
Lemma dir_index_eq (rb : Z) : u8 (s32 (gpio_dir rb)) = u8 rb.
Proof. unfold gpio_dir. now rewrite u8_s32, u8_u32, Z.add_0_r. Qed.

Lemma data_index_eq (rb : Z) : u8 (s32 (gpio_data rb)) = u8 (rb + 1).
Proof. unfold gpio_data. now rewrite u8_s32, u8_u32. Qed.

Lemma dir_data_index_ne (rb : Z) : u8 rb <> u8 (rb + 1).
Proof.
  unfold u8. intros Heq.
  assert (Hm : (rb + 1 - rb) mod 2 ^ 8 = 0).
  { rewrite Zminus_mod, <- Heq, Z.sub_diag. reflexivity. }
  replace (rb + 1 - rb) with 1 in Hm by lia. discriminate Hm.
Qed.

(** ** Bit-level behaviour of the read-modify-write steps *)

Lemma put_bit_range (d offset value : Z) : 0 <= put_bit d offset value < 256.
Proof. unfold put_bit. destruct (negb (value =? 0)); apply u8_range. Qed.

Lemma put_bit_testbit (d offset value i : Z) :
  0 <= offset < 8 -> 0 <= i < 8 ->
  Z.testbit (put_bit d offset value) i =
  if decide (i = offset) then negb (value =? 0) else Z.testbit d i.
Proof.
  intros Ho Hi. unfold put_bit. rewrite shl1_pin by lia.
  assert (Hlt : (i <? 8) = true) by (apply Z.ltb_lt; lia).
  destruct (value =? 0); simpl; rewrite u8_testbit, Hlt; simpl.
  - rewrite Z.land_spec, Z.lnot_spec, Z.pow2_bits_eqb by lia.
    case_decide as Hd.
    + subst. rewrite Z.eqb_refl. simpl. apply andb_false_r.
    + assert (Hne : (offset =? i) = false) by (apply Z.eqb_neq; lia).
      rewrite Hne. simpl. apply andb_true_r.
  - rewrite Z.lor_spec, Z.pow2_bits_eqb by lia.
    case_decide as Hd.
    + subst. rewrite Z.eqb_refl. apply orb_true_r.
    + assert (Hne : (offset =? i) = false) by (apply Z.eqb_neq; lia).
      rewrite Hne. apply orb_false_r.
Qed.

Lemma set_dir_bit_testbit (d offset i : Z) :
  0 <= offset < 8 -> 0 <= i < 8 ->
  Z.testbit (u8 (Z.lor d (shl1 offset))) i =
  if decide (i = offset) then true else Z.testbit d i.
Proof.
  intros Ho Hi. exact (put_bit_testbit d offset 1 i Ho Hi).
Qed.

Lemma clear_dir_bit_testbit (d offset i : Z) :
  0 <= offset < 8 -> 0 <= i < 8 ->
  Z.testbit (u8 (Z.land d (Z.lnot (shl1 offset)))) i =
  if decide (i = offset) then false else Z.testbit d i.
Proof.
  intros Ho Hi. exact (put_bit_testbit d offset 0 i Ho Hi).
Qed.

(** Masking one bit of a byte gives that bit's weight or zero. *)
Lemma land_pin (d offset : Z) :
  0 <= offset < 8 ->
  Z.land d (shl1 offset) = if Z.testbit d offset then 2 ^ offset else 0.
Proof.
  intros Ho. rewrite shl1_pin by lia. apply Z.bits_inj'. intros n Hn.
  rewrite Z.land_spec, Z.pow2_bits_eqb by lia.
  destruct (Z.eqb_spec offset n) as [-> | Hne].
  - destruct (Z.testbit d n) eqn:Hb.
    + rewrite Z.pow2_bits_true by lia. reflexivity.
    + now rewrite Z.bits_0.
  - rewrite andb_false_r. destruct (Z.testbit d offset).
    + symmetry. apply Z.pow2_bits_false. lia.
    + now rewrite Z.bits_0.
Qed.

Lemma byte_testbit_high (d i : Z) :
  0 <= d < 256 -> 8 <= i -> Z.testbit d i = false.
Proof.
  intros Hd Hi. rewrite <- (u8_small d Hd), u8_testbit.
  replace (i <? 8) with false by (symmetry; apply Z.ltb_ge; lia).
  reflexivity.
Qed.

(** Setting bit 0 of a byte, as [put_bit] does for offset 0 and value 1. *)
Lemma put_bit_0_1 (d : Z) : 0 <= d < 256 -> put_bit d 0 1 = Z.lor d 1.
Proof.
  intros Hd. unfold put_bit. cbn [Z.eqb negb].
  rewrite shl1_pin by lia. change (2 ^ 0) with 1.
  apply Z.bits_inj'. intros n Hn.
  rewrite u8_testbit. destruct (Z.ltb_spec n 8) as [Hlt | Hge]; [reflexivity |].
  cbn [andb]. rewrite Z.lor_spec, (byte_testbit_high d n Hd Hge).
  symmetry. apply (byte_testbit_high 1 n); lia.
Qed.

(** Clearing bit 0 of a byte, as the direction write does for offset 0. *)
Lemma clear_bit_0 (d : Z) :
  0 <= d < 256 -> u8 (Z.land d (Z.lnot (shl1 0))) = Z.land d 0xFE.
Proof.
  intros Hd. rewrite shl1_pin by lia. change (2 ^ 0) with 1.
  apply Z.bits_inj'. intros n Hn.
  rewrite u8_testbit, !Z.land_spec.
  destruct (Z.ltb_spec n 8) as [Hlt | Hge]; cbn [andb].
  - f_equal. rewrite Z.lnot_spec by lia.
    assert (Hcases : n = 0 \/ n = 1 \/ n = 2 \/ n = 3 \/ n = 4 \/ n = 5 \/
                     n = 6 \/ n = 7) by lia.
    destruct Hcases as [-> | [-> | [-> | [-> | [-> | [-> | [-> | ->]]]]]]];
      reflexivity.
  - now rewrite (byte_testbit_high d n Hd Hge).
Qed.

(** Two bytes read high byte first make the 16-bit identifier. *)
Lemma chip_id_bytes (hi lo : Z) :
  0 <= hi < 256 -> 0 <= lo < 256 -> chip_id hi lo = 256 * hi + lo.
Proof.
  intros Hhi Hlo. unfold chip_id.
  rewrite Z.shiftl_mul_pow2 by lia. change (2 ^ 8) with 256.
  rewrite s32_small by lia.
  assert (Hland : Z.land (hi * 256) lo = 0).
  { apply Z.bits_inj'. intros n Hn. rewrite Z.land_spec, Z.bits_0.
    destruct (Z.ltb_spec n 8) as [Hlt | Hge].
    - change 256 with (2 ^ 8). rewrite Z.mul_pow2_bits_low by lia. reflexivity.
    - rewrite (byte_testbit_high lo n Hlo Hge). apply andb_false_r. }
  assert (Hsum : hi * 256 + lo = Z.lor (hi * 256) lo).
  { rewrite <- Z.lxor_lor by exact Hland. apply Z.add_nocarry_lxor.
    exact Hland. }
  rewrite <- Hsum. unfold u16. rewrite Z.mod_small; lia.
Qed.

Arguments u8 : simpl never.
Arguments u16 : simpl never.
Arguments u32 : simpl never.
Arguments s32 : simpl never.
Arguments shl1 : simpl never.
Arguments region : simpl never.

(** ** Running the driver symbolically *)

Ltac unfold_driver :=
  unfold nct610xd_gpio_init, register_driver_and_device,
    nct610xd_gpio_device_add, nct610xd_find,
    nct610xd_gpio_get_direction, nct610xd_gpio_direction_in,
    nct610xd_gpio_get, nct610xd_gpio_direction_out, nct610xd_gpio_set,
    superio_enter, superio_exit, superio_select, superio_inb, superio_inw,
    superio_outb, request_muxed_region, release_region, outb, inb, bind, ret.

Ltac run_driver :=
  cbn [negb fst snd Z.eqb hw held plat trace log set_hw set_held].

Ltac flat_trace :=
  unfold enter_events, exit_events, select_events, read_events, write_events;
  cbn [fst snd trace held hw plat log set_hw set_held app];
  rewrite <- ?app_assoc; cbn [app].

Ltac sync_reads l r :=
  lazymatch l with
  | EvInb _ ?v :: ?l' =>
      lazymatch r with
      | EvInb _ ?x :: ?r' => tryif is_evar x then unify x v else idtac;
                             sync_reads l' r'
      end
  | _ :: ?l' => lazymatch r with _ :: ?r' => sync_reads l' r' end
  | _ => idtac
  end.

(** Proof step shared by the trace lemmas: bring both sides to a flat list
    of events, give each byte read its value from the run, and rewrite the
    wrapped port and register numbers. *)
Ltac norm_trace :=
  flat_trace;
  lazymatch goal with
  | |- _ ++ ?l = _ ++ ?r => sync_reads l r
  end;
  rewrite ?data_port_eq, ?dir_index_eq, ?data_index_eq, ?u8_idem.

Section Sessions.

Context {HW : Type} {PB : PortBus HW}.

Implicit Types w : world HW.

Lemma region_free_restored (a : Z) (s : gset Z) :
  region a 2 ## s -> (s ∪ region a 2) ∖ region a 2 = s.
Proof.
  intros Hd. apply set_eq. intros x.
  rewrite elem_of_difference, elem_of_union.
  split; [tauto |]. intros Hx. split; [tauto |].
  intros Hr. exact (Hd x Hr Hx).
Qed.

Lemma superio_enter_busy (a : Z) w :
  ¬ region a 2 ## held w ->
  superio_enter a w = (- EBUSY, log (EvRequest a 2 false) w).
Proof.
  intros Hb. unfold_driver. destruct (decide (region a 2 ## held w)); [tauto |].
  reflexivity.
Qed.

Lemma superio_enter_result (a : Z) w :
  fst (superio_enter a w) = 0 <-> region a 2 ## held w.
Proof.
  unfold_driver. destruct (decide (region a 2 ## held w)); cbn; split;
    try tauto; discriminate.
Qed.

Lemma bind_run {A B : Type} (m : M HW A) (f : A -> M HW B) w :
  bind m f w = f (fst (m w)) (snd (m w)).
Proof. unfold bind. now destruct (m w). Qed.

Lemma superio_enter_free (a : Z) w :
  region a 2 ## held w -> superio_enter a w = (0, entered a w).
Proof.
  intros Hfree. unfold_driver.
  destruct (decide (region a 2 ## held w)); [| tauto].
  unfold entered, enter_events, log, set_hw, set_held. cbn.
  rewrite <- !app_assoc. reflexivity.
Qed.

End Sessions.

(** Start of a run in which the region is free: step over [superio_enter],
    then unfold the rest. *)
Ltac enter_free Hfree :=
  unfold nct610xd_find, nct610xd_gpio_get_direction,
    nct610xd_gpio_direction_in, nct610xd_gpio_get,
    nct610xd_gpio_direction_out, nct610xd_gpio_set;
  cbv zeta;
  rewrite !(bind_run (superio_enter _)), !(superio_enter_free _ _ Hfree);
  cbn [negb fst snd Z.eqb];
  unfold entered; unfold_driver; run_driver.

Section Traces.

Context {HW : Type} {PB : PortBus HW}.

Implicit Types w : world HW.

Lemma gpio_get_direction_run (bank : nct610xd_gpio_bank) (offset : Z) w :
  let a := addr (sio (data bank)) in
  region a 2 ## held w ->
  exists dir, 0 <= dir < 256 /\
    fst (nct610xd_gpio_get_direction bank offset w) = Z.land dir (shl1 offset) /\
    trace (snd (nct610xd_gpio_get_direction bank offset w)) =
      trace w ++ enter_events a ++ select_events a SIO_LD_GPIO
        ++ read_events a (regbase bank) dir ++ exit_events a /\
    held (snd (nct610xd_gpio_get_direction bank offset w)) = held w.
Proof.
  intros a Hfree. enter_free Hfree.
  eexists. split; [| split; [| split]].
  3: norm_trace; reflexivity.
  - apply u8_range.
  - now rewrite u8_idem.
  - now apply region_free_restored.
Qed.

Lemma gpio_direction_in_run (bank : nct610xd_gpio_bank) (offset : Z) w :
  let a := addr (sio (data bank)) in
  region a 2 ## held w ->
  exists dir, 0 <= dir < 256 /\
    fst (nct610xd_gpio_direction_in bank offset w) = 0 /\
    trace (snd (nct610xd_gpio_direction_in bank offset w)) =
      trace w ++ enter_events a ++ select_events a SIO_LD_GPIO
        ++ read_events a (regbase bank) dir
        ++ write_events a (regbase bank) (u8 (Z.lor dir (shl1 offset)))
        ++ exit_events a /\
    held (snd (nct610xd_gpio_direction_in bank offset w)) = held w.
Proof.
  intros a Hfree. enter_free Hfree.
  eexists. split; [| split; [| split]].
  3: norm_trace; reflexivity.
  - apply u8_range.
  - reflexivity.
  - now apply region_free_restored.
Qed.

Lemma gpio_get_run (bank : nct610xd_gpio_bank) (offset : Z) w :
  let a := addr (sio (data bank)) in
  region a 2 ## held w ->
  exists d, 0 <= d < 256 /\
    fst (nct610xd_gpio_get bank offset w) =
      (if Z.land d (shl1 offset) =? 0 then 0 else 1) /\
    trace (snd (nct610xd_gpio_get bank offset w)) =
      trace w ++ enter_events a ++ select_events a SIO_LD_GPIO
        ++ read_events a (regbase bank + 1) d ++ exit_events a /\
    held (snd (nct610xd_gpio_get bank offset w)) = held w.
Proof.
  intros a Hfree. enter_free Hfree.
  eexists. split; [| split; [| split]].
  3: norm_trace; reflexivity.
  - apply u8_range.
  - now rewrite u8_idem.
  - now apply region_free_restored.
Qed.

Lemma gpio_direction_out_run (bank : nct610xd_gpio_bank) (offset value : Z) w :
  let a := addr (sio (data bank)) in
  region a 2 ## held w ->
  exists d dir, 0 <= d < 256 /\ 0 <= dir < 256 /\
    fst (nct610xd_gpio_direction_out bank offset value w) = 0 /\
    trace (snd (nct610xd_gpio_direction_out bank offset value w)) =
      trace w ++ enter_events a ++ select_events a SIO_LD_GPIO
        ++ read_events a (regbase bank + 1) d
        ++ write_events a (regbase bank + 1) (put_bit d offset value)
        ++ read_events a (regbase bank) dir
        ++ write_events a (regbase bank)
             (u8 (Z.land dir (Z.lnot (shl1 offset))))
        ++ exit_events a /\
    held (snd (nct610xd_gpio_direction_out bank offset value w)) = held w.
Proof.
  intros a Hfree. enter_free Hfree.
  eexists. eexists. split; [| split; [| split; [| split]]].
  4: norm_trace; reflexivity.
  - apply u8_range.
  - apply u8_range.
  - reflexivity.
  - now apply region_free_restored.
Qed.

Lemma gpio_set_run (bank : nct610xd_gpio_bank) (offset value : Z) w :
  let a := addr (sio (data bank)) in
  region a 2 ## held w ->
  exists d, 0 <= d < 256 /\
    trace (snd (nct610xd_gpio_set bank offset value w)) =
      trace w ++ enter_events a ++ select_events a SIO_LD_GPIO
        ++ read_events a (regbase bank + 1) d
        ++ write_events a (regbase bank + 1) (put_bit d offset value)
        ++ exit_events a /\
    held (snd (nct610xd_gpio_set bank offset value w)) = held w.
Proof.
  intros a Hfree. enter_free Hfree.
  eexists. split; [| split].
  2: norm_trace; reflexivity.
  - apply u8_range.
  - now apply region_free_restored.
Qed.

Lemma find_run (a : Z) (s : nct610xd_sio) w :
  region a 2 ## held w ->
  exists hi lo, 0 <= hi < 256 /\ 0 <= lo < 256 /\
    held (snd (nct610xd_find a s w)) = held w /\
    if chip_id hi lo =? SIO_NCT610XD_ID then
      exists hi2 lo2 cfg cfg2,
        trace (snd (nct610xd_find a s w)) =
          trace w ++ enter_events a
            ++ read_events a SIO_CHIPID hi ++ read_events a (SIO_CHIPID + 1) lo
            ++ enable_events a hi2 lo2 cfg cfg2 ++ exit_events a /\
        fst (nct610xd_find a s w) =
          (if Z.land cfg2 0x10 =? 0 then EPERM else 0,
           {| addr := a; type := nct610xd |})
    else
      trace (snd (nct610xd_find a s w)) =
        trace w ++ enter_events a
          ++ read_events a SIO_CHIPID hi ++ read_events a (SIO_CHIPID + 1) lo
          ++ exit_events a /\
      fst (nct610xd_find a s w) = (- ENODEV, s).
Proof.
  intros Hfree. enter_free Hfree.
  match goal with
  | |- context [Z.lor (s32 (Z.shiftl ?hi 8)) ?lo] => exists hi, lo
  end.
  split; [apply u8_range |]. split; [apply u8_range |].
  unfold chip_id.
  match goal with
  | |- context [u16 ?x =? SIO_NCT610XD_ID] =>
      destruct (u16 x =? SIO_NCT610XD_ID) eqn:Hid
  end.
  - run_driver.
    match goal with
    | |- context [Z.land ?c 16 =? 0] => destruct (Z.land c 16 =? 0) eqn:Hen
    end.
    + split; [now apply region_free_restored |].
      do 4 eexists. split.
      * unfold enable_events. norm_trace. reflexivity.
      * cbn [fst snd]. rewrite ?u8_idem in *. rewrite Hen. reflexivity.
    + split; [now apply region_free_restored |].
      do 4 eexists. split.
      * unfold enable_events. norm_trace. reflexivity.
      * cbn [fst snd]. rewrite ?u8_idem in *. rewrite Hen. reflexivity.
  - split; [now apply region_free_restored |]. split.
    + norm_trace. reflexivity.
    + reflexivity.
Qed.

(** *** Runs in which the region is held by somebody else *)

Lemma superio_enter_fails (a : Z) w :
  fst (superio_enter a w) = - EBUSY <-> ¬ region a 2 ## held w.
Proof.
  split.
  - intros Hr Hf. rewrite (superio_enter_free _ _ Hf) in Hr. discriminate Hr.
  - intros Hb. now rewrite (superio_enter_busy _ _ Hb).
Qed.

Lemma gpio_get_direction_busy (bank : nct610xd_gpio_bank) (offset : Z) w :
  let a := addr (sio (data bank)) in
  ¬ region a 2 ## held w ->
  nct610xd_gpio_get_direction bank offset w =
    (- EBUSY, log (EvRequest a 2 false) w).
Proof.
  intros a Hb. unfold nct610xd_gpio_get_direction. cbv zeta.
  now rewrite bind_run, (superio_enter_busy _ _ Hb).
Qed.

Lemma gpio_direction_in_busy (bank : nct610xd_gpio_bank) (offset : Z) w :
  let a := addr (sio (data bank)) in
  ¬ region a 2 ## held w ->
  nct610xd_gpio_direction_in bank offset w =
    (- EBUSY, log (EvRequest a 2 false) w).
Proof.
  intros a Hb. unfold nct610xd_gpio_direction_in. cbv zeta.
  now rewrite bind_run, (superio_enter_busy _ _ Hb).
Qed.

Lemma gpio_get_busy (bank : nct610xd_gpio_bank) (offset : Z) w :
  let a := addr (sio (data bank)) in
  ¬ region a 2 ## held w ->
  nct610xd_gpio_get bank offset w = (- EBUSY, log (EvRequest a 2 false) w).
Proof.
  intros a Hb. unfold nct610xd_gpio_get. cbv zeta.
  now rewrite bind_run, (superio_enter_busy _ _ Hb).
Qed.

Lemma gpio_direction_out_busy (bank : nct610xd_gpio_bank)
    (offset value : Z) w :
  let a := addr (sio (data bank)) in
  ¬ region a 2 ## held w ->
  nct610xd_gpio_direction_out bank offset value w =
    (- EBUSY, log (EvRequest a 2 false) w).
Proof.
  intros a Hb. unfold nct610xd_gpio_direction_out. cbv zeta.
  now rewrite bind_run, (superio_enter_busy _ _ Hb).
Qed.

Lemma gpio_set_busy (bank : nct610xd_gpio_bank) (offset value : Z) w :
  let a := addr (sio (data bank)) in
  ¬ region a 2 ## held w ->
  nct610xd_gpio_set bank offset value w =
    (tt, log (EvRequest a 2 false) w).
Proof.
  intros a Hb. unfold nct610xd_gpio_set. cbv zeta.
  now rewrite bind_run, (superio_enter_busy _ _ Hb).
Qed.

Lemma find_busy (a : Z) (s : nct610xd_sio) w :
  ¬ region a 2 ## held w ->
  nct610xd_find a s w = (- EBUSY, s, log (EvRequest a 2 false) w).
Proof.
  intros Hb. unfold nct610xd_find.
  now rewrite bind_run, (superio_enter_busy _ _ Hb).
Qed.

End Traces.

(** ** Properties that hold whatever the hardware does *)

Section Protocol.

Context {HW : Type} {PB : PortBus HW}.

Implicit Types w : world HW.

Lemma session_closed_intro (a : Z) w w' (mid : list event) :
  held w' = held w ->
  trace w' = trace w ++ enter_events a ++ mid ++ exit_events a ->
  forallb is_port_io mid = true ->
  session_closed a w w'.
Proof. intros Hh Ht Hm. split; [exact Hh |]. exists mid. now split. Qed.

(** C6: [superio_enter] on a region somebody holds returns [-EBUSY] at once:
    the hardware is untouched and the only thing recorded is the refused
    request.  On a free region it takes both ports, writes the unlock key
    0x87 to the index port twice in a row, and returns 0. *)
Theorem superio_enter_spec (base : Z) w :
  let r := superio_enter base w in
  if decide (region base 2 ## held w) then
    fst r = 0 /\
    trace (snd r) = trace w ++ [EvRequest base 2 true;
                                EvOutb 0x87 (u16 base);
                                EvOutb 0x87 (u16 base)] /\
    held (snd r) = held w ∪ region base 2
  else
    fst r = - EBUSY /\
    trace (snd r) = trace w ++ [EvRequest base 2 false] /\
    hw (snd r) = hw w /\ held (snd r) = held w.
Proof.
  intros r. subst r. destruct (decide (region base 2 ## held w)) as [Hf | Hb].
  - rewrite (superio_enter_free _ _ Hf). cbn. repeat split.
  - rewrite (superio_enter_busy _ _ Hb). cbn. repeat split.
Qed.

(** C1: every operation that entered also exits.  Whenever [superio_enter]
    succeeds, each of the five pin callbacks and [nct610xd_find] ends its run
    with the lock key 0xAA written to the index port followed by the release
    of the region, and no port of it stays held.  This covers every path of
    [nct610xd_find]: identifier mismatch, enable verification failed, and
    success. *)
Theorem every_entered_session_is_closed
    (bank : nct610xd_gpio_bank) (offset value : Z) (s : nct610xd_sio) w :
  let a := addr (sio (data bank)) in
  fst (superio_enter a w) = 0 ->
  session_closed a w (snd (nct610xd_gpio_get_direction bank offset w)) /\
  session_closed a w (snd (nct610xd_gpio_direction_in bank offset w)) /\
  session_closed a w (snd (nct610xd_gpio_get bank offset w)) /\
  session_closed a w (snd (nct610xd_gpio_direction_out bank offset value w)) /\
  session_closed a w (snd (nct610xd_gpio_set bank offset value w)) /\
  session_closed a w (snd (nct610xd_find a s w)).
Proof.
  intros a Hent. apply superio_enter_result in Hent.
  assert (Hclose : forall w' mid,
    held w' = held w ->
    trace w' = trace w ++ enter_events a ++ mid ++ exit_events a ->
    forallb is_port_io mid = true -> session_closed a w w')
    by (intros; eapply session_closed_intro; eassumption).
  refine (conj _ (conj _ (conj _ (conj _ (conj _ _))))).
  - destruct (gpio_get_direction_run bank offset w Hent)
      as (dir & _ & _ & Ht & Hh).
    apply (Hclose _ (select_events a SIO_LD_GPIO
                       ++ read_events a (regbase bank) dir));
      [exact Hh | | reflexivity].
    rewrite Ht, <- ?app_assoc. reflexivity.
  - destruct (gpio_direction_in_run bank offset w Hent)
      as (dir & _ & _ & Ht & Hh).
    apply (Hclose _ (select_events a SIO_LD_GPIO
      ++ read_events a (regbase bank) dir
      ++ write_events a (regbase bank) (u8 (Z.lor dir (shl1 offset)))));
      [exact Hh | | reflexivity].
    rewrite Ht, <- ?app_assoc. reflexivity.
  - destruct (gpio_get_run bank offset w Hent) as (d & _ & _ & Ht & Hh).
    apply (Hclose _ (select_events a SIO_LD_GPIO
                       ++ read_events a (regbase bank + 1) d));
      [exact Hh | | reflexivity].
    rewrite Ht, <- ?app_assoc. reflexivity.
  - destruct (gpio_direction_out_run bank offset value w Hent)
      as (d & dir & _ & _ & _ & Ht & Hh).
    apply (Hclose _ (select_events a SIO_LD_GPIO
      ++ read_events a (regbase bank + 1) d
      ++ write_events a (regbase bank + 1) (put_bit d offset value)
      ++ read_events a (regbase bank) dir
      ++ write_events a (regbase bank)
           (u8 (Z.land dir (Z.lnot (shl1 offset))))));
      [exact Hh | | reflexivity].
    rewrite Ht, <- ?app_assoc. reflexivity.
  - destruct (gpio_set_run bank offset value w Hent) as (d & _ & Ht & Hh).
    apply (Hclose _ (select_events a SIO_LD_GPIO
      ++ read_events a (regbase bank + 1) d
      ++ write_events a (regbase bank + 1) (put_bit d offset value)));
      [exact Hh | | reflexivity].
    rewrite Ht, <- ?app_assoc. reflexivity.
  - destruct (find_run a s w Hent) as (hi & lo & _ & _ & Hh & Hrun).
    destruct (chip_id hi lo =? SIO_NCT610XD_ID).
    + destruct Hrun as (hi2 & lo2 & cfg & cfg2 & Ht & _).
      apply (Hclose _ (read_events a SIO_CHIPID hi
        ++ read_events a (SIO_CHIPID + 1) lo
        ++ enable_events a hi2 lo2 cfg cfg2));
        [exact Hh | | reflexivity].
      rewrite Ht, <- ?app_assoc. reflexivity.
    + destruct Hrun as (Ht & _).
      apply (Hclose _ (read_events a SIO_CHIPID hi
        ++ read_events a (SIO_CHIPID + 1) lo));
        [exact Hh | | reflexivity].
      rewrite Ht, <- ?app_assoc. reflexivity.
Qed.

(** C4: [nct610xd_gpio_direction_out], once the GPIO logical device is
    selected, makes exactly two register writes, in this order: the data
    register [regbase + 1] with bit [offset] set for a nonzero [value] and
    cleared for 0, every other bit as just read; then the direction register
    [regbase + 0] with bit [offset] cleared, every other bit as just read.
    For [regbase = 0xF0], offset 0 and value 1 this is register 0xF1 written
    with bit 0 set and then register 0xF0 written with bit 0 cleared. *)
Theorem direction_out_writes_data_then_direction
    (bank : nct610xd_gpio_bank) (offset value : Z) w :
  let a := addr (sio (data bank)) in
  fst (superio_enter a w) = 0 ->
  0 <= offset < 8 ->
  exists d dir d' dir',
    trace (snd (nct610xd_gpio_direction_out bank offset value w)) =
      trace w ++ enter_events a ++ select_events a SIO_LD_GPIO
        ++ read_events a (regbase bank + 1) d
        ++ write_events a (regbase bank + 1) d'
        ++ read_events a (regbase bank) dir
        ++ write_events a (regbase bank) dir'
        ++ exit_events a /\
    (0 <= d' < 256 /\ 0 <= dir' < 256) /\
    (forall i, 0 <= i < 8 ->
       Z.testbit d' i =
         if decide (i = offset) then negb (value =? 0) else Z.testbit d i) /\
    (forall i, 0 <= i < 8 ->
       Z.testbit dir' i =
         if decide (i = offset) then false else Z.testbit dir i) /\
    (regbase bank = 0xF0 -> offset = 0 -> value = 1 ->
       trace (snd (nct610xd_gpio_direction_out bank offset value w)) =
         trace w ++ enter_events a ++ select_events a SIO_LD_GPIO
           ++ [EvOutb 0xF1 (u16 a); EvInb (u16 (a + 1)) d;
               EvOutb 0xF1 (u16 a); EvOutb (Z.lor d 1) (u16 (a + 1));
               EvOutb 0xF0 (u16 a); EvInb (u16 (a + 1)) dir;
               EvOutb 0xF0 (u16 a); EvOutb (Z.land dir 0xFE) (u16 (a + 1))]
           ++ exit_events a).
Proof.
  intros a Hent Ho. apply superio_enter_result in Hent.
  destruct (gpio_direction_out_run bank offset value w Hent)
    as (d & dir & Hd & Hdir & _ & Ht & _).
  exists d, dir, (put_bit d offset value),
    (u8 (Z.land dir (Z.lnot (shl1 offset)))).
  split; [exact Ht |]. split; [split; [apply put_bit_range | apply u8_range] |].
  split; [intros i Hi; now apply put_bit_testbit |].
  split; [intros i Hi; now apply clear_dir_bit_testbit |].
  intros Hrb -> ->. rewrite Ht. fold a. rewrite Hrb.
  unfold read_events, write_events.
  rewrite (put_bit_0_1 d Hd), u8_idem, (clear_bit_0 dir Hdir).
  assert (Hlor : u8 (Z.lor d 1) = Z.lor d 1).
  { rewrite <- (put_bit_0_1 d Hd). apply u8_small, put_bit_range. }
  rewrite Hlor. reflexivity.
Qed.

(** C10: the two read callbacks encode a set bit differently.  On success
    [nct610xd_gpio_get] returns exactly 0 or 1, the value of bit [offset] of
    the data byte it read; [nct610xd_gpio_get_direction] returns the masked
    byte [dir & (1 << offset)], which for a set bit is [2 ^ offset]: for an
    input pin at an offset above 0 that is not 1. *)
Theorem get_is_normalised_get_direction_is_raw
    (bank : nct610xd_gpio_bank) (offset : Z) w :
  let a := addr (sio (data bank)) in
  fst (superio_enter a w) = 0 ->
  0 <= offset < 8 ->
  (exists d,
     trace (snd (nct610xd_gpio_get bank offset w)) =
       trace w ++ enter_events a ++ select_events a SIO_LD_GPIO
         ++ read_events a (regbase bank + 1) d ++ exit_events a /\
     fst (nct610xd_gpio_get bank offset w) =
       (if Z.testbit d offset then 1 else 0)) /\
  (exists dir,
     trace (snd (nct610xd_gpio_get_direction bank offset w)) =
       trace w ++ enter_events a ++ select_events a SIO_LD_GPIO
         ++ read_events a (regbase bank) dir ++ exit_events a /\
     fst (nct610xd_gpio_get_direction bank offset w) =
       Z.land dir (Z.shiftl 1 offset) /\
     fst (nct610xd_gpio_get_direction bank offset w) =
       (if Z.testbit dir offset then 2 ^ offset else 0) /\
     (Z.testbit dir offset = true -> 0 < offset ->
      fst (nct610xd_gpio_get_direction bank offset w) <> 1)).
Proof.
  intros a Hent Ho. apply superio_enter_result in Hent. split.
  - destruct (gpio_get_run bank offset w Hent) as (d & _ & Hr & Ht & _).
    exists d. split; [exact Ht |]. rewrite Hr, land_pin by exact Ho.
    destruct (Z.testbit d offset); [| reflexivity].
    assert (0 < 2 ^ offset) by (apply Z.pow_pos_nonneg; lia).
    destruct (Z.eqb_spec (2 ^ offset) 0); [lia | reflexivity].
  - destruct (gpio_get_direction_run bank offset w Hent)
      as (dir & _ & Hr & Ht & _).
    exists dir. split; [exact Ht |]. split; [| split].
    + rewrite Hr, Z.shiftl_1_l, <- (shl1_pin offset Ho). reflexivity.
    + rewrite Hr. now apply land_pin.
    + intros Hbit Hpos. rewrite Hr, land_pin, Hbit by exact Ho.
      assert (2 ^ 1 <= 2 ^ offset) by (apply Z.pow_le_mono_r; lia).
      change (2 ^ 1) with 2 in *. lia.
Qed.

(** C9: after the identifier matched, [nct610xd_find] selects the GPIO
    logical device, reads register 0x30, writes it back with bit 0x10 set
    and reads it again; if bit 0x10 is missing from what it reads back, it
    gives up with the error [EPERM], the positive 1 and not [-EPERM]. *)
Theorem find_enables_port_and_verifies (a : Z) (s : nct610xd_sio) w :
  fst (superio_enter a w) = 0 ->
  exists hi lo,
    if chip_id hi lo =? SIO_NCT610XD_ID then
      exists hi2 lo2 cfg cfg2,
        trace (snd (nct610xd_find a s w)) =
          trace w ++ enter_events a
            ++ read_events a 0x20 hi ++ read_events a 0x21 lo
            ++ read_events a 0x20 hi2 ++ read_events a 0x21 lo2
            ++ select_events a SIO_LD_GPIO
            ++ read_events a 0x30 cfg
            ++ write_events a 0x30 (Z.lor cfg 0x10)
            ++ read_events a 0x30 cfg2
            ++ exit_events a /\
        (Z.land cfg2 0x10 = 0 ->
           fst (fst (nct610xd_find a s w)) = EPERM /\
           0 < fst (fst (nct610xd_find a s w)) /\
           fst (fst (nct610xd_find a s w)) <> - EPERM) /\
        (Z.land cfg2 0x10 <> 0 -> fst (fst (nct610xd_find a s w)) = 0)
    else
      trace (snd (nct610xd_find a s w)) =
        trace w ++ enter_events a
          ++ read_events a 0x20 hi ++ read_events a 0x21 lo
          ++ exit_events a.
Proof.
  intros Hent. apply superio_enter_result in Hent.
  destruct (find_run a s w Hent) as (hi & lo & _ & _ & _ & Hrun).
  exists hi, lo. destruct (chip_id hi lo =? SIO_NCT610XD_ID).
  - destruct Hrun as (hi2 & lo2 & cfg & cfg2 & Ht & Hr).
    exists hi2, lo2, cfg, cfg2. split; [| split].
    + rewrite Ht. unfold enable_events, write_events.
      rewrite <- ?app_assoc, u8_idem. reflexivity.
    + intros Hz. rewrite Hr, Hz. cbn. unfold EPERM. lia.
    + intros Hnz. rewrite Hr. cbn [fst].
      destruct (Z.eqb_spec (Z.land cfg2 16) 0); [contradiction | reflexivity].
  - exact (proj1 Hrun).
Qed.

Lemma find_keeps_platform_out (a : Z) (s : nct610xd_sio) w :
  exists t, trace (snd (nct610xd_find a s w)) = trace w ++ t /\
    forallb (fun e => negb (is_platform_event e)) t = true.
Proof.
  destruct (decide (region a 2 ## held w)) as [Hf | Hb].
  - destruct (find_run a s w Hf) as (hi & lo & _ & _ & _ & Hrun).
    destruct (chip_id hi lo =? SIO_NCT610XD_ID).
    + destruct Hrun as (hi2 & lo2 & cfg & cfg2 & Ht & _).
      eexists. split; [exact Ht | reflexivity].
    + destruct Hrun as (Ht & _). eexists. split; [exact Ht | reflexivity].
  - rewrite (find_busy a s w Hb). eexists. split; reflexivity.
Qed.

Lemma find_success_records_address (a : Z) (s : nct610xd_sio) w :
  fst (fst (nct610xd_find a s w)) = 0 ->
  snd (fst (nct610xd_find a s w)) = {| addr := a; type := nct610xd |}.
Proof.
  intros Hz. destruct (decide (region a 2 ## held w)) as [Hf | Hb].
  - destruct (find_run a s w Hf) as (hi & lo & _ & _ & _ & Hrun).
    destruct (chip_id hi lo =? SIO_NCT610XD_ID).
    + destruct Hrun as (hi2 & lo2 & cfg & cfg2 & _ & Hr). now rewrite Hr.
    + destruct Hrun as (_ & Hr). rewrite Hr in Hz. discriminate Hz.
  - rewrite (find_busy a s w Hb) in Hz. discriminate Hz.
Qed.

(** C5, as the code has it: discovery probes 0x2e first and 0x4e only when
    the probe of 0x2e returned nonzero; it goes on to registration with the
    address of the first probe that returned 0; when both return nonzero the
    result is [-ENODEV] and nothing was asked of the platform bus.  A probe
    returns 0 exactly when it acquired the region, the two bytes read from
    0x20 and 0x21, high byte first, make 0xd282, and register 0x30 reads
    back with bit 0x10 set; on another identifier it returns [-ENODEV]. *)
Theorem discovery_tries_0x2e_then_0x4e (sio0 : nct610xd_sio) w :
  let r1 := nct610xd_find 0x2e sio0 w in
  let r2 := nct610xd_find 0x4e (snd (fst r1)) (snd r1) in
  (if fst (fst r1) =? 0 then
     nct610xd_gpio_init sio0 w =
       register_driver_and_device (snd (fst r1)) (snd r1) /\
     addr (snd (fst r1)) = 0x2e
   else if fst (fst r2) =? 0 then
     nct610xd_gpio_init sio0 w =
       register_driver_and_device (snd (fst r2)) (snd r2) /\
     addr (snd (fst r2)) = 0x4e
   else
     nct610xd_gpio_init sio0 w = (- ENODEV, snd r2) /\
     exists t, trace (snd r2) = trace w ++ t /\
       forallb (fun e => negb (is_platform_event e)) t = true) /\
  (forall (a : Z) (s : nct610xd_sio) (w' : world HW),
     let r := nct610xd_find a s w' in
     if decide (region a 2 ## held w') then
       exists hi lo, 0 <= hi < 256 /\ 0 <= lo < 256 /\
         if 256 * hi + lo =? 0xd282 then
           exists hi2 lo2 cfg cfg2,
             trace (snd r) =
               trace w' ++ enter_events a
                 ++ read_events a 0x20 hi ++ read_events a 0x21 lo
                 ++ enable_events a hi2 lo2 cfg cfg2 ++ exit_events a /\
             snd (fst r) = {| addr := a; type := nct610xd |} /\
             (fst (fst r) = 0 <-> Z.land cfg2 0x10 <> 0)
         else
           trace (snd r) =
             trace w' ++ enter_events a
               ++ read_events a 0x20 hi ++ read_events a 0x21 lo
               ++ exit_events a /\
           fst r = (- ENODEV, s)
     else
       fst r = (- EBUSY, s) /\
       trace (snd r) = trace w' ++ [EvRequest a 2 false]).
Proof.
  intros r1 r2. split.
  - unfold nct610xd_gpio_init. rewrite bind_run. fold r1.
    destruct (Z.eqb_spec (fst (fst r1)) 0) as [Hz1 | Hnz1]; cbn [negb].
    + split; [reflexivity |].
      subst r1. now rewrite find_success_records_address.
    + rewrite bind_run. fold r2.
      destruct (Z.eqb_spec (fst (fst r2)) 0) as [Hz2 | Hnz2]; cbn [negb].
      * split; [reflexivity |].
        subst r2. now rewrite find_success_records_address.
      * split; [reflexivity |].
        destruct (find_keeps_platform_out 0x2e sio0 w) as (t1 & Ht1 & Hp1).
        destruct (find_keeps_platform_out 0x4e (snd (fst r1)) (snd r1))
          as (t2 & Ht2 & Hp2).
        exists (t1 ++ t2). split.
        -- subst r2. rewrite Ht2. subst r1. rewrite Ht1.
           now rewrite app_assoc.
        -- now rewrite forallb_app, Hp1, Hp2.
  - intros a s w' r. subst r.
    destruct (decide (region a 2 ## held w')) as [Hf | Hb].
    + destruct (find_run a s w' Hf) as (hi & lo & Hhi & Hlo & _ & Hrun).
      exists hi, lo. split; [exact Hhi |]. split; [exact Hlo |].
      rewrite (chip_id_bytes hi lo Hhi Hlo) in Hrun.
      change SIO_NCT610XD_ID with 53890 in Hrun.
      destruct (256 * hi + lo =? 53890).
      * destruct Hrun as (hi2 & lo2 & cfg & cfg2 & Ht & Hr).
        exists hi2, lo2, cfg, cfg2. split; [exact Ht |].
        rewrite Hr. cbn [fst snd]. split; [reflexivity |].
        destruct (Z.eqb_spec (Z.land cfg2 16) 0) as [Hz | Hnz].
        -- unfold EPERM. split; [discriminate | contradiction].
        -- split; [intros _; exact Hnz | reflexivity].
      * exact Hrun.
    + rewrite (find_busy a s w' Hb). cbn. split; reflexivity.
Qed.

(** C7, as the code has it: when [superio_enter] fails, the four callbacks
    that return an [int] return that [-EBUSY], and no successful run of them
    returns a negative value ([nct610xd_gpio_get_direction] returns a masked
    byte, [nct610xd_gpio_get] 0 or 1, the two direction setters 0), so their
    caller can tell; [nct610xd_gpio_set] returns nothing and leaves the world
    as the failed [superio_enter] left it, with no port touched. *)
Theorem enter_failure_reaches_caller_of_int_callbacks
    (bank : nct610xd_gpio_bank) (offset value : Z) :
  let a := addr (sio (data bank)) in
  (reports_enter_failure a (nct610xd_gpio_get_direction bank offset) /\
   reports_enter_failure a (nct610xd_gpio_direction_in bank offset) /\
   reports_enter_failure a (nct610xd_gpio_get bank offset) /\
   reports_enter_failure a (nct610xd_gpio_direction_out bank offset value)) /\
  (forall w, fst (superio_enter a w) = - EBUSY ->
     fst (nct610xd_gpio_get_direction bank offset w) = - EBUSY /\
     fst (nct610xd_gpio_direction_in bank offset w) = - EBUSY /\
     fst (nct610xd_gpio_get bank offset w) = - EBUSY /\
     fst (nct610xd_gpio_direction_out bank offset value w) = - EBUSY /\
     nct610xd_gpio_set bank offset value w = (tt, snd (superio_enter a w)) /\
     hw (snd (nct610xd_gpio_set bank offset value w)) = hw w) /\
  (forall w, fst (superio_enter a w) = 0 ->
     0 <= fst (nct610xd_gpio_get_direction bank offset w) /\
     fst (nct610xd_gpio_direction_in bank offset w) = 0 /\
     (fst (nct610xd_gpio_get bank offset w) = 0 \/
      fst (nct610xd_gpio_get bank offset w) = 1) /\
     fst (nct610xd_gpio_direction_out bank offset value w) = 0).
Proof.
  intros a. split; [| split].
  - unfold reports_enter_failure.
    refine (conj _ (conj _ (conj _ _))); intros wb wk Hb Hk;
      apply superio_enter_fails in Hb; apply superio_enter_result in Hk.
    + rewrite (gpio_get_direction_busy bank offset wb Hb).
      destruct (gpio_get_direction_run bank offset wk Hk)
        as (dir & Hd & Hr & _).
      rewrite Hr. cbn [fst].
      assert (0 <= Z.land dir (shl1 offset)) by (apply Z.land_nonneg; lia).
      unfold EBUSY. lia.
    + rewrite (gpio_direction_in_busy bank offset wb Hb).
      destruct (gpio_direction_in_run bank offset wk Hk) as (dir & _ & Hr & _).
      rewrite Hr. discriminate.
    + rewrite (gpio_get_busy bank offset wb Hb).
      destruct (gpio_get_run bank offset wk Hk) as (d & _ & Hr & _).
      rewrite Hr. cbn [fst]. destruct (Z.land d (shl1 offset) =? 0);
        discriminate.
    + rewrite (gpio_direction_out_busy bank offset value wb Hb).
      destruct (gpio_direction_out_run bank offset value wk Hk)
        as (d & dir & _ & _ & Hr & _).
      rewrite Hr. discriminate.
  - intros w Hb. apply superio_enter_fails in Hb.
    rewrite (gpio_get_direction_busy bank offset w Hb),
      (gpio_direction_in_busy bank offset w Hb),
      (gpio_get_busy bank offset w Hb),
      (gpio_direction_out_busy bank offset value w Hb),
      (gpio_set_busy bank offset value w Hb),
      (superio_enter_busy _ _ Hb).
    repeat split.
  - intros w Hk. apply superio_enter_result in Hk.
    refine (conj _ (conj _ (conj _ _))).
    + destruct (gpio_get_direction_run bank offset w Hk)
        as (dir & Hd & Hr & _).
      rewrite Hr. apply Z.land_nonneg. lia.
    + destruct (gpio_direction_in_run bank offset w Hk) as (dir & _ & Hr & _).
      exact Hr.
    + destruct (gpio_get_run bank offset w Hk) as (d & _ & Hr & _).
      rewrite Hr. destruct (Z.land d (shl1 offset) =? 0); auto.
    + destruct (gpio_direction_out_run bank offset value w Hk)
        as (d & dir & _ & _ & Hr & _).
      exact Hr.
Qed.

End Protocol.

(** ** Properties on the simulated chip *)

Lemma data_port_ne_index (a : Z) : u16 (s32 (a + 1)) <> u16 a.
Proof.
  rewrite data_port_eq. unfold u16. intros Heq.
  assert (Hm : (a + 1 - a) mod 2 ^ 16 = 0).
  { rewrite Zminus_mod, Heq, Z.sub_diag. reflexivity. }
  replace (a + 1 - a) with 1 in Hm by lia. discriminate Hm.
Qed.

Lemma data_port_of_base (a : Z) : u16 (s32 (a + 1)) = u16 (u16 a + 1).
Proof.
  rewrite data_port_eq. unfold u16. now rewrite Zplus_mod_idemp_l.
Qed.

Lemma chip_outb_index (a v : Z) (c : sio_chip) :
  hw_base c = u16 a ->
  chip_outb v (u16 a) c =
    {| hw_base := hw_base c; latch := v; regfile := regfile c;
       rdonly := rdonly c |}.
Proof. intros Hb. unfold chip_outb. now rewrite Hb, Z.eqb_refl. Qed.

Lemma chip_outb_data (a v : Z) (c : sio_chip) :
  hw_base c = u16 a ->
  chip_outb v (u16 (s32 (a + 1))) c =
    {| hw_base := hw_base c; latch := latch c; regfile := chip_write v c;
       rdonly := rdonly c |}.
Proof.
  intros Hb. unfold chip_outb. rewrite Hb.
  destruct (Z.eqb_spec (u16 (s32 (a + 1))) (u16 a)) as [He | _].
  - now apply data_port_ne_index in He.
  - now rewrite <- data_port_of_base, Z.eqb_refl.
Qed.

Lemma chip_inb_data (a : Z) (c : sio_chip) :
  hw_base c = u16 a ->
  chip_inb (u16 (s32 (a + 1))) c = (regfile c (latch c), c).
Proof.
  intros Hb. unfold chip_inb.
  now rewrite Hb, <- data_port_of_base, Z.eqb_refl.
Qed.

Lemma chip_write_other (v i : Z) (c : sio_chip) :
  latch c <> i -> chip_write v c i = regfile c i.
Proof.
  intros Hne. unfold chip_write. destruct (decide (latch c ∈ rdonly c)).
  - reflexivity.
  - now apply fn_lookup_insert_ne.
Qed.

Lemma chip_write_latched (v : Z) (c : sio_chip) :
  latch c ∉ rdonly c -> chip_write v c (latch c) = v.
Proof.
  intros Hw. unfold chip_write.
  destruct (decide (latch c ∈ rdonly c)); [contradiction |].
  apply fn_lookup_insert.
Qed.

(** Symbolic run on the chip decoded at the driver's address [a]: every
    port access, innermost first, is turned into its effect on the latch and
    the register file. *)
Ltac chip_run a :=
  cbn [bus_outb bus_inb sio_chip_bus];
  repeat first
    [ rewrite (chip_outb_index a _ (SioChip (u16 a) _ _ _) eq_refl)
    | rewrite (chip_outb_data a _ (SioChip (u16 a) _ _ _) eq_refl)
    | rewrite (chip_inb_data a (SioChip (u16 a) _ _ _) eq_refl)
    | progress cbn [fst snd hw_base latch regfile rdonly hw held trace plat] ].

(** A world whose hardware is a chip decoded at [a], taken apart. *)
Ltac open_chip w Hbase :=
  destruct w as [[?b ?l ?rf ?ro] ?hd ?pl ?tr];
  cbn [hw hw_base held] in *; subst.

(** The register looked up is not the one the outermost write went to. *)
Ltac other_register :=
  lazymatch goal with
  | |- chip_write ?v ?c ?i = _ =>
      rewrite (chip_write_other v i c) by (cbn [latch]; congruence);
      cbn [regfile]
  | |- context [Z.land (u8 (chip_write ?v ?c ?i))] =>
      rewrite (chip_write_other v i c) by (cbn [latch]; congruence);
      cbn [regfile]
  end.

(** The register looked up is the one the outermost write went to. *)
Ltac written_register Hrw :=
  lazymatch goal with
  | |- chip_write ?v ?c ?i = _ =>
      etransitivity; [apply (chip_write_latched v c); exact Hrw |]
  end.

Section OnChip.

Implicit Types w : world sio_chip.

Lemma sim_get (bank : nct610xd_gpio_bank) (offset : Z) w :
  let a := addr (sio (data bank)) in
  hw_base (hw w) = u16 a ->
  region a 2 ## held w ->
  u8 (regbase bank + 1) <> SIO_LDSEL ->
  fst (nct610xd_gpio_get bank offset w) =
    if Z.land (u8 (regfile (hw w) (u8 (regbase bank + 1)))) (shl1 offset) =? 0
    then 0 else 1.
Proof.
  intros a Hbase Hfree Hsel. enter_free Hfree. fold a.
  open_chip w Hbase. chip_run a.
  rewrite data_index_eq, u8_idem. change (u8 SIO_LDSEL) with SIO_LDSEL.
  other_register. reflexivity.
Qed.

Lemma sim_get_direction (bank : nct610xd_gpio_bank) (offset : Z) w :
  let a := addr (sio (data bank)) in
  hw_base (hw w) = u16 a ->
  region a 2 ## held w ->
  u8 (regbase bank) <> SIO_LDSEL ->
  fst (nct610xd_gpio_get_direction bank offset w) =
    Z.land (u8 (regfile (hw w) (u8 (regbase bank)))) (shl1 offset).
Proof.
  intros a Hbase Hfree Hsel. enter_free Hfree. fold a.
  open_chip w Hbase. chip_run a.
  rewrite dir_index_eq, u8_idem. change (u8 SIO_LDSEL) with SIO_LDSEL.
  other_register. reflexivity.
Qed.

Lemma sim_direction_in (bank : nct610xd_gpio_bank) (offset : Z) w :
  let a := addr (sio (data bank)) in
  let w' := snd (nct610xd_gpio_direction_in bank offset w) in
  hw_base (hw w) = u16 a ->
  region a 2 ## held w ->
  u8 (regbase bank) <> SIO_LDSEL ->
  u8 (regbase bank) ∉ rdonly (hw w) ->
  hw_base (hw w') = u16 a /\ held w' = held w /\
  regfile (hw w') (u8 (regbase bank)) =
    u8 (Z.lor (u8 (regfile (hw w) (u8 (regbase bank)))) (shl1 offset)).
Proof.
  intros a w' Hbase Hfree Hsel Hrw. subst w'. enter_free Hfree. fold a.
  open_chip w Hbase. chip_run a.
  split; [reflexivity |]. split; [now apply region_free_restored |].
  rewrite !dir_index_eq, !u8_idem. change (u8 SIO_LDSEL) with SIO_LDSEL.
  written_register Hrw. do 3 f_equal.
  other_register. reflexivity.
Qed.

Lemma sim_direction_out (bank : nct610xd_gpio_bank) (offset value : Z) w :
  let a := addr (sio (data bank)) in
  let w' := snd (nct610xd_gpio_direction_out bank offset value w) in
  hw_base (hw w) = u16 a ->
  region a 2 ## held w ->
  hw_base (hw w') = u16 a /\ held w' = held w /\
  (u8 (regbase bank + 1) <> SIO_LDSEL ->
   u8 (regbase bank + 1) ∉ rdonly (hw w) ->
   regfile (hw w') (u8 (regbase bank + 1)) =
     put_bit (u8 (regfile (hw w) (u8 (regbase bank + 1)))) offset value) /\
  (u8 (regbase bank) <> SIO_LDSEL ->
   u8 (regbase bank) ∉ rdonly (hw w) ->
   regfile (hw w') (u8 (regbase bank)) =
     u8 (Z.land (u8 (regfile (hw w) (u8 (regbase bank))))
           (Z.lnot (shl1 offset)))).
Proof.
  intros a w' Hbase Hfree. subst w'. enter_free Hfree. fold a.
  open_chip w Hbase. chip_run a.
  split; [reflexivity |]. split; [now apply region_free_restored |].
  rewrite !dir_index_eq, !data_index_eq, !u8_idem.
  change (u8 SIO_LDSEL) with SIO_LDSEL.
  pose proof (dir_data_index_ne (regbase bank)) as Hne.
  split; intros Hsel Hrw.
  - other_register. written_register Hrw.
    rewrite u8_small by apply put_bit_range. do 2 f_equal.
    other_register. reflexivity.
  - written_register Hrw. do 3 f_equal.
    other_register. other_register. reflexivity.
Qed.

Lemma sim_set (bank : nct610xd_gpio_bank) (offset value : Z) w (i : Z) :
  let a := addr (sio (data bank)) in
  hw_base (hw w) = u16 a ->
  i <> u8 (regbase bank + 1) -> i <> SIO_LDSEL ->
  regfile (hw (snd (nct610xd_gpio_set bank offset value w))) i =
    regfile (hw w) i.
Proof.
  intros a Hbase Hdata Hsel.
  destruct (decide (region a 2 ## held w)) as [Hfree | Hbusy].
  - enter_free Hfree. fold a. open_chip w Hbase. chip_run a.
    rewrite !data_index_eq. change (u8 SIO_LDSEL) with SIO_LDSEL.
    other_register. other_register. reflexivity.
  - now rewrite (gpio_set_busy bank offset value w Hbusy).
Qed.

End OnChip.

(** ** Round trips and frame on the simulated chip *)

Section RoundTrips.

Implicit Types w : world sio_chip.

(** C2: on a chip whose data register keeps what is written to it,
    [nct610xd_gpio_direction_out] with level 0 or 1 on a pin 0..7 followed by
    [nct610xd_gpio_get] on the same pin of the same bank returns that level. *)
Theorem direction_out_then_get_returns_level
    (bank : nct610xd_gpio_bank) (offset level : Z) w :
  let a := addr (sio (data bank)) in
  hw_base (hw w) = u16 a ->
  fst (superio_enter a w) = 0 ->
  u8 (regbase bank + 1) ∉ rdonly (hw w) ->
  u8 (regbase bank + 1) <> SIO_LDSEL ->
  0 <= offset < 8 ->
  level = 0 \/ level = 1 ->
  fst (nct610xd_gpio_direction_out bank offset level w) = 0 /\
  fst (nct610xd_gpio_get bank offset
         (snd (nct610xd_gpio_direction_out bank offset level w))) = level.
Proof.
  intros a Hbase Hent Hrw Hsel Ho Hlevel.
  apply superio_enter_result in Hent.
  destruct (gpio_direction_out_run bank offset level w Hent)
    as (d & dir & _ & _ & Hret & _).
  split; [exact Hret |].
  destruct (sim_direction_out bank offset level w Hbase Hent)
    as (Hbase' & Hheld' & Hdata & _).
  specialize (Hdata Hsel Hrw).
  rewrite sim_get; [| exact Hbase' | now rewrite Hheld' | exact Hsel].
  rewrite Hdata, u8_small by apply put_bit_range.
  rewrite land_pin, put_bit_testbit by lia.
  destruct (decide (offset = offset)) as [_ | Hne]; [| contradiction].
  assert (Hpos : 0 < 2 ^ offset) by (apply Z.pow_pos_nonneg; lia).
  destruct Hlevel as [-> | ->]; cbn [Z.eqb negb].
  - reflexivity.
  - destruct (Z.eqb_spec (2 ^ offset) 0); [lia | reflexivity].
Qed.

(** C8: on a chip whose direction register keeps what is written to it, for
    a pin 0..7: after [nct610xd_gpio_direction_in],
    [nct610xd_gpio_get_direction] returns the nonzero [2 ^ offset], which
    stands for input; after [nct610xd_gpio_direction_out] with any level it
    returns 0, which stands for output. *)
Theorem direction_set_then_get_direction
    (bank : nct610xd_gpio_bank) (offset : Z) w :
  let a := addr (sio (data bank)) in
  hw_base (hw w) = u16 a ->
  fst (superio_enter a w) = 0 ->
  u8 (regbase bank) ∉ rdonly (hw w) ->
  u8 (regbase bank) <> SIO_LDSEL ->
  0 <= offset < 8 ->
  (fst (nct610xd_gpio_get_direction bank offset
          (snd (nct610xd_gpio_direction_in bank offset w))) = 2 ^ offset /\
   2 ^ offset <> 0) /\
  (forall level,
     fst (nct610xd_gpio_get_direction bank offset
            (snd (nct610xd_gpio_direction_out bank offset level w))) = 0).
Proof.
  intros a Hbase Hent Hrw Hsel Ho.
  apply superio_enter_result in Hent.
  assert (Hpos : 0 < 2 ^ offset) by (apply Z.pow_pos_nonneg; lia).
  split; [split; [| lia] |].
  - destruct (sim_direction_in bank offset w Hbase Hent Hsel Hrw)
      as (Hbase' & Hheld' & Hdir).
    rewrite sim_get_direction; [| exact Hbase' | now rewrite Hheld' | exact Hsel].
    rewrite Hdir, u8_idem, land_pin, set_dir_bit_testbit by lia.
    destruct (decide (offset = offset)); [reflexivity | contradiction].
  - intros level.
    destruct (sim_direction_out bank offset level w Hbase Hent)
      as (Hbase' & Hheld' & _ & Hdir).
    specialize (Hdir Hsel Hrw).
    rewrite sim_get_direction; [| exact Hbase' | now rewrite Hheld' | exact Hsel].
    rewrite Hdir, u8_idem, land_pin, clear_dir_bit_testbit by lia.
    destruct (decide (offset = offset)); [reflexivity | contradiction].
Qed.

(** C3: [nct610xd_gpio_set] leaves the direction register [regbase + 0] as it
    was, for every offset and value, whether or not it could enter.  Of the
    registers of the chip it writes only the data register [regbase + 1],
    after the logical-device select; its one register write is that of the
    data register. *)
Theorem set_never_touches_direction_register
    (bank : nct610xd_gpio_bank) (offset value : Z) w :
  let a := addr (sio (data bank)) in
  let w' := snd (nct610xd_gpio_set bank offset value w) in
  hw_base (hw w) = u16 a ->
  u8 (regbase bank) <> SIO_LDSEL ->
  regfile (hw w') (u8 (regbase bank)) = regfile (hw w) (u8 (regbase bank)) /\
  (forall i, i <> u8 (regbase bank + 1) -> i <> SIO_LDSEL ->
     regfile (hw w') i = regfile (hw w) i) /\
  (if decide (region a 2 ## held w) then
     exists d,
       trace w' =
         trace w ++ enter_events a ++ select_events a SIO_LD_GPIO
           ++ read_events a (regbase bank + 1) d
           ++ write_events a (regbase bank + 1) (put_bit d offset value)
           ++ exit_events a
   else trace w' = trace w ++ [EvRequest a 2 false]).
Proof.
  intros a w' Hbase Hsel. subst w'. split; [| split].
  - apply sim_set; [exact Hbase | apply dir_data_index_ne | exact Hsel].
  - intros i Hi Hi7. now apply sim_set.
  - destruct (decide (region a 2 ## held w)) as [Hfree | Hbusy].
    + destruct (gpio_set_run bank offset value w Hfree) as (d & _ & Ht & _).
      exists d. exact Ht.
    + now rewrite (gpio_set_busy bank offset value w Hbusy).
Qed.

End RoundTrips.

(** ** Concrete runs *)

(** The probe of a chip whose identifier matches but whose enable bit does
    not stick: positive [EPERM], address recorded, session closed. *)
Example find_on_stuck_enable_register :
  let r := nct610xd_find 0x2e sio_garbage (boot chip_stuck) in
  fst r = (EPERM, {| addr := 0x2e; type := nct610xd |}) /\
  trace (snd r) =
    [EvRequest 0x2e 2 true; EvOutb 0x87 0x2e; EvOutb 0x87 0x2e;
     EvOutb 0x20 0x2e; EvInb 0x2f 0xd2; EvOutb 0x21 0x2e; EvInb 0x2f 0x82;
     EvOutb 0x20 0x2e; EvInb 0x2f 0xd2; EvOutb 0x21 0x2e; EvInb 0x2f 0x82;
     EvOutb 0x07 0x2e; EvOutb 0x07 0x2f;
     EvOutb 0x30 0x2e; EvInb 0x2f 0;
     EvOutb 0x30 0x2e; EvOutb 0x10 0x2f;
     EvOutb 0x30 0x2e; EvInb 0x2f 0;
     EvOutb 0xAA 0x2e; EvRelease 0x2e 2].
Proof. split; vm_compute; reflexivity. Qed.

(** The probe of an address nothing answers at: the floating bus reads
    0xffff and the probe returns [-ENODEV]. *)
Example find_on_empty_address :
  let r := nct610xd_find 0x4e sio_garbage (boot chip0) in
  fst r = (- ENODEV, sio_garbage) /\
  trace (snd r) =
    [EvRequest 0x4e 2 true; EvOutb 0x87 0x4e; EvOutb 0x87 0x4e;
     EvOutb 0x20 0x4e; EvInb 0x4f 0xff; EvOutb 0x21 0x4e; EvInb 0x4f 0xff;
     EvOutb 0xAA 0x4e; EvRelease 0x4e 2].
Proof. split; vm_compute; reflexivity. Qed.

(** Initialisation with the chip at 0x2e: one probe, then registration. *)
Example init_finds_chip_at_0x2e :
  let r := nct610xd_gpio_init sio_garbage (boot chip0) in
  fst r = 0 /\
  trace (snd r) =
    [EvRequest 0x2e 2 true; EvOutb 0x87 0x2e; EvOutb 0x87 0x2e;
     EvOutb 0x20 0x2e; EvInb 0x2f 0xd2; EvOutb 0x21 0x2e; EvInb 0x2f 0x82;
     EvOutb 0x20 0x2e; EvInb 0x2f 0xd2; EvOutb 0x21 0x2e; EvInb 0x2f 0x82;
     EvOutb 0x07 0x2e; EvOutb 0x07 0x2f;
     EvOutb 0x30 0x2e; EvInb 0x2f 0;
     EvOutb 0x30 0x2e; EvOutb 0x10 0x2f;
     EvOutb 0x30 0x2e; EvInb 0x2f 0x10;
     EvOutb 0xAA 0x2e; EvRelease 0x2e 2;
     EvDriverRegister 0; EvDeviceAlloc true;
     EvDeviceAddData {| addr := 0x2e; type := nct610xd |} 0; EvDeviceAdd 0].
Proof. split; vm_compute; reflexivity. Qed.

(** [nct610xd_gpio_direction_out] of pin 3 to level 1, then the reads. *)
Example direction_out_pin3_then_reads :
  let w1 := snd (nct610xd_gpio_direction_out (bank0 0x2e) 3 1 (boot chip0)) in
  let w2 := snd (nct610xd_gpio_direction_in (bank0 0x2e) 3 (boot chip0)) in
  fst (nct610xd_gpio_get (bank0 0x2e) 3 w1) = 1 /\
  fst (nct610xd_gpio_get_direction (bank0 0x2e) 3 w1) = 0 /\
  fst (nct610xd_gpio_get_direction (bank0 0x2e) 3 w2) = 8.
Proof. repeat split; vm_compute; reflexivity. Qed.

(** ** Where the code differs from what was claimed *)

(** C5, as claimed, fails: the identifier registers of the chip at 0x2e hold
    0xd282, yet the probe of 0x2e does not succeed, because register 0x30
    does not take the enable bit, and initialisation ends in [-ENODEV]. *)
Lemma matching_id_does_not_imply_success :
  let w := boot chip_stuck in
  256 * regfile (hw w) 0x20 + regfile (hw w) 0x21 = 0xd282 /\
  fst (fst (nct610xd_find 0x2e sio_garbage w)) <> 0 /\
  fst (nct610xd_gpio_init sio_garbage w) = - ENODEV.
Proof.
  cbv zeta. split; [| split].
  - vm_compute. reflexivity.
  - vm_compute. discriminate.
  - vm_compute. reflexivity.
Qed.

(** C7, as claimed, fails for [nct610xd_gpio_set]: its result when
    [superio_enter] fails with [-EBUSY] is the result it gives when
    [superio_enter] succeeds, so nothing reaches the caller. *)
Lemma gpio_set_hides_enter_failure :
  ¬ reports_enter_failure (HW := sio_chip) 0x2e
      (nct610xd_gpio_set (bank0 0x2e) 0 1).
Proof.
  intros Hrep.
  apply (Hrep (boot_busy chip0 0x2e) (boot chip0)).
  - vm_compute. reflexivity.
  - vm_compute. reflexivity.
  - vm_compute. reflexivity.
Qed.

(** ** The theorems at concrete inputs *)

Lemma every_entered_session_is_closed_witness :
  let bank := bank0 0x2e in
  let w := boot chip_stuck in
  fst (superio_enter 0x2e w) = 0 /\
  (session_closed 0x2e w (snd (nct610xd_gpio_get_direction bank 3 w)) /\
   session_closed 0x2e w (snd (nct610xd_gpio_direction_in bank 3 w)) /\
   session_closed 0x2e w (snd (nct610xd_gpio_get bank 3 w)) /\
   session_closed 0x2e w (snd (nct610xd_gpio_direction_out bank 3 1 w)) /\
   session_closed 0x2e w (snd (nct610xd_gpio_set bank 3 1 w)) /\
   session_closed 0x2e w (snd (nct610xd_find 0x2e sio_garbage w))).
Proof.
  cbv zeta. split.
  - vm_compute. reflexivity.
  - apply (every_entered_session_is_closed (bank0 0x2e) 3 1 sio_garbage
             (boot chip_stuck)).
    vm_compute. reflexivity.
Defined.

Lemma direction_out_then_get_returns_level_witness :
  let bank := bank0 0x2e in
  let w := boot chip0 in
  (hw_base (hw w) = u16 0x2e /\ fst (superio_enter 0x2e w) = 0 /\
   (u8 (regbase bank + 1) ∉ rdonly (hw w)) /\
   u8 (regbase bank + 1) <> SIO_LDSEL) /\
  fst (nct610xd_gpio_direction_out bank 3 1 w) = 0 /\
  fst (nct610xd_gpio_get bank 3
         (snd (nct610xd_gpio_direction_out bank 3 1 w))) = 1.
Proof.
  cbv zeta.
  assert (Hbase : hw_base (hw (boot chip0)) = u16 0x2e) by reflexivity.
  assert (Hent : fst (superio_enter 0x2e (boot chip0)) = 0)
    by (vm_compute; reflexivity).
  assert (Hrw : u8 (regbase (bank0 0x2e) + 1) ∉ rdonly (hw (boot chip0)))
    by apply not_elem_of_empty.
  assert (Hsel : u8 (regbase (bank0 0x2e) + 1) <> SIO_LDSEL)
    by (vm_compute; discriminate).
  split; [repeat split; assumption |].
  apply (direction_out_then_get_returns_level (bank0 0x2e) 3 1 (boot chip0)
           Hbase Hent Hrw Hsel); [lia | right; reflexivity].
Defined.

Lemma direction_set_then_get_direction_witness :
  let bank := bank0 0x2e in
  let w := boot chip0 in
  (hw_base (hw w) = u16 0x2e /\ fst (superio_enter 0x2e w) = 0 /\
   (u8 (regbase bank) ∉ rdonly (hw w)) /\ u8 (regbase bank) <> SIO_LDSEL) /\
  (fst (nct610xd_gpio_get_direction bank 3
          (snd (nct610xd_gpio_direction_in bank 3 w))) = 2 ^ 3 /\
   2 ^ 3 <> 0) /\
  (forall level,
     fst (nct610xd_gpio_get_direction bank 3
            (snd (nct610xd_gpio_direction_out bank 3 level w))) = 0).
Proof.
  cbv zeta.
  assert (Hbase : hw_base (hw (boot chip0)) = u16 0x2e) by reflexivity.
  assert (Hent : fst (superio_enter 0x2e (boot chip0)) = 0)
    by (vm_compute; reflexivity).
  assert (Hrw : u8 (regbase (bank0 0x2e)) ∉ rdonly (hw (boot chip0)))
    by apply not_elem_of_empty.
  assert (Hsel : u8 (regbase (bank0 0x2e)) <> SIO_LDSEL)
    by (vm_compute; discriminate).
  split; [repeat split; assumption |].
  apply (direction_set_then_get_direction (bank0 0x2e) 3 (boot chip0)
           Hbase Hent Hrw Hsel). lia.
Defined.

Lemma set_never_touches_direction_register_witness :
  let bank := bank0 0x2e in
  let w := boot chip0 in
  let w' := snd (nct610xd_gpio_set bank 3 1 w) in
  (hw_base (hw w) = u16 0x2e /\ u8 (regbase bank) <> SIO_LDSEL) /\
  regfile (hw w') (u8 (regbase bank)) = regfile (hw w) (u8 (regbase bank)).
Proof.
  cbv zeta.
  assert (Hbase : hw_base (hw (boot chip0)) = u16 0x2e) by reflexivity.
  assert (Hsel : u8 (regbase (bank0 0x2e)) <> SIO_LDSEL)
    by (vm_compute; discriminate).
  split; [split; assumption |].
  exact (proj1 (set_never_touches_direction_register (bank0 0x2e) 3 1
                  (boot chip0) Hbase Hsel)).
Defined.

Lemma direction_out_writes_data_then_direction_witness :
  let bank := bank0 0x2e in
  let w := boot chip0 in
  fst (superio_enter 0x2e w) = 0 /\
  exists d dir d' dir',
    trace (snd (nct610xd_gpio_direction_out bank 0 1 w)) =
      trace w ++ enter_events 0x2e ++ select_events 0x2e SIO_LD_GPIO
        ++ read_events 0x2e (regbase bank + 1) d
        ++ write_events 0x2e (regbase bank + 1) d'
        ++ read_events 0x2e (regbase bank) dir
        ++ write_events 0x2e (regbase bank) dir'
        ++ exit_events 0x2e.
Proof.
  cbv zeta.
  assert (Hent : fst (superio_enter 0x2e (boot chip0)) = 0)
    by (vm_compute; reflexivity).
  split; [exact Hent |].
  destruct (direction_out_writes_data_then_direction (bank0 0x2e) 0 1
              (boot chip0) Hent ltac:(lia))
    as (d & dir & d' & dir' & Ht & _).
  exists d, dir, d', dir'. exact Ht.
Defined.

Lemma get_is_normalised_get_direction_is_raw_witness :
  let bank := bank0 0x2e in
  let w := boot chip0 in
  fst (superio_enter 0x2e w) = 0 /\
  exists d,
    trace (snd (nct610xd_gpio_get bank 3 w)) =
      trace w ++ enter_events 0x2e ++ select_events 0x2e SIO_LD_GPIO
        ++ read_events 0x2e (regbase bank + 1) d ++ exit_events 0x2e /\
    fst (nct610xd_gpio_get bank 3 w) = (if Z.testbit d 3 then 1 else 0).
Proof.
  cbv zeta.
  assert (Hent : fst (superio_enter 0x2e (boot chip0)) = 0)
    by (vm_compute; reflexivity).
  split; [exact Hent |].
  exact (proj1 (get_is_normalised_get_direction_is_raw (bank0 0x2e) 3
                  (boot chip0) Hent ltac:(lia))).
Defined.

Lemma find_enables_port_and_verifies_witness :
  let w := boot chip_stuck in
  fst (superio_enter 0x2e w) = 0 /\
  exists hi lo,
    if chip_id hi lo =? SIO_NCT610XD_ID then
      exists hi2 lo2 cfg cfg2,
        trace (snd (nct610xd_find 0x2e sio_garbage w)) =
          trace w ++ enter_events 0x2e
            ++ read_events 0x2e 0x20 hi ++ read_events 0x2e 0x21 lo
            ++ read_events 0x2e 0x20 hi2 ++ read_events 0x2e 0x21 lo2
            ++ select_events 0x2e SIO_LD_GPIO
            ++ read_events 0x2e 0x30 cfg
            ++ write_events 0x2e 0x30 (Z.lor cfg 0x10)
            ++ read_events 0x2e 0x30 cfg2
            ++ exit_events 0x2e /\
        (Z.land cfg2 0x10 = 0 ->
           fst (fst (nct610xd_find 0x2e sio_garbage w)) = EPERM /\
           0 < fst (fst (nct610xd_find 0x2e sio_garbage w)) /\
           fst (fst (nct610xd_find 0x2e sio_garbage w)) <> - EPERM) /\
        (Z.land cfg2 0x10 <> 0 ->
           fst (fst (nct610xd_find 0x2e sio_garbage w)) = 0)
    else
      trace (snd (nct610xd_find 0x2e sio_garbage w)) =
        trace w ++ enter_events 0x2e
          ++ read_events 0x2e 0x20 hi ++ read_events 0x2e 0x21 lo
          ++ exit_events 0x2e.
Proof.
  cbv zeta.
  assert (Hent : fst (superio_enter 0x2e (boot chip_stuck)) = 0)
    by (vm_compute; reflexivity).
  split; [exact Hent |].
  exact (find_enables_port_and_verifies 0x2e sio_garbage (boot chip_stuck)
           Hent).
Defined.

(** ** Further properties of the driver, whatever the hardware does *)

Lemma shl1_small (offset : Z) : 0 <= offset < 31 -> shl1 offset = 2 ^ offset.
Proof.
  intros Ho. unfold shl1. rewrite Z.shiftl_1_l. apply s32_small.
  assert (0 < 2 ^ offset) by (apply Z.pow_pos_nonneg; lia).
  assert (2 ^ offset < 2 ^ 31) by (apply Z.pow_lt_mono_r; lia).
  lia.
Qed.

(** A byte has no bit at the position of a pin beyond the eighth. *)
Lemma land_beyond_byte (d offset : Z) :
  0 <= d < 256 -> 8 <= offset < 31 -> Z.land d (shl1 offset) = 0.
Proof.
  intros Hd Ho. rewrite shl1_small by lia. apply Z.bits_inj'. intros n Hn.
  rewrite Z.land_spec, Z.bits_0, Z.pow2_bits_eqb by lia.
  destruct (Z.eqb_spec offset n) as [<- | _].
  - rewrite (byte_testbit_high d offset Hd) by lia. reflexivity.
  - apply andb_false_r.
Qed.

Lemma put_bit_beyond_byte (d offset value : Z) :
  0 <= d < 256 -> 8 <= offset < 31 -> put_bit d offset value = d.
Proof.
  intros Hd Ho. unfold put_bit. rewrite shl1_small by lia.
  apply Z.bits_inj'. intros n Hn.
  destruct (negb (value =? 0)); rewrite u8_testbit.
  - rewrite Z.lor_spec, Z.pow2_bits_eqb by lia.
    destruct (Z.ltb_spec n 8) as [Hlt | Hge]; cbn [andb].
    + replace (offset =? n) with false by (symmetry; apply Z.eqb_neq; lia).
      apply orb_false_r.
    + now rewrite (byte_testbit_high d n Hd Hge).
  - rewrite Z.land_spec, Z.lnot_spec, Z.pow2_bits_eqb by lia.
    destruct (Z.ltb_spec n 8) as [Hlt | Hge]; cbn [andb].
    + replace (offset =? n) with false by (symmetry; apply Z.eqb_neq; lia).
      apply andb_true_r.
    + now rewrite (byte_testbit_high d n Hd Hge).
Qed.

(** The value [superio_inw] assembles from two bytes. *)
Lemma inw_value_bytes (hi lo : Z) :
  0 <= hi < 256 -> 0 <= lo < 256 ->
  Z.lor (s32 (Z.shiftl hi 8)) lo = 256 * hi + lo.
Proof.
  intros Hhi Hlo.
  rewrite Z.shiftl_mul_pow2 by lia. change (2 ^ 8) with 256.
  rewrite s32_small by lia.
  assert (Hland : Z.land (hi * 256) lo = 0).
  { apply Z.bits_inj'. intros n Hn. rewrite Z.land_spec, Z.bits_0.
    destruct (Z.ltb_spec n 8) as [Hlt | Hge].
    - change 256 with (2 ^ 8). rewrite Z.mul_pow2_bits_low by lia. reflexivity.
    - rewrite (byte_testbit_high lo n Hlo Hge). apply andb_false_r. }
  rewrite <- Z.lxor_lor by exact Hland.
  rewrite <- Z.add_nocarry_lxor by exact Hland. lia.
Qed.

Ltac in_window :=
  unfold enable_events, enter_events, exit_events, select_events,
    read_events, write_events;
  cbn [app];
  repeat (constructor; [cbn; auto |]); constructor.

Section Confinement.

Context {HW : Type} {PB : PortBus HW}.

Implicit Types w : world HW.

(** X1: whatever the hardware answers and whether or not the region is free,
    each pin callback and [nct610xd_find] only ever requests, accesses and
    releases the two ports of its own window: the index port [a] and the
    data port [a + 1]. *)
Theorem operations_stay_in_their_window
    (bank : nct610xd_gpio_bank) (offset value : Z) (s : nct610xd_sio) w :
  let a := addr (sio (data bank)) in
  let confined (w' : world HW) :=
    exists t, trace w' = trace w ++ t /\ Forall (event_in_window a) t in
  confined (snd (nct610xd_gpio_get_direction bank offset w)) /\
  confined (snd (nct610xd_gpio_direction_in bank offset w)) /\
  confined (snd (nct610xd_gpio_get bank offset w)) /\
  confined (snd (nct610xd_gpio_direction_out bank offset value w)) /\
  confined (snd (nct610xd_gpio_set bank offset value w)) /\
  confined (snd (nct610xd_find a s w)).
Proof.
  intros a confined. subst confined. cbv beta.
  destruct (decide (region a 2 ## held w)) as [Hf | Hb].
  - refine (conj _ (conj _ (conj _ (conj _ (conj _ _))))).
    + destruct (gpio_get_direction_run bank offset w Hf)
        as (dir & _ & _ & Ht & _).
      eexists. split; [exact Ht | in_window].
    + destruct (gpio_direction_in_run bank offset w Hf)
        as (dir & _ & _ & Ht & _).
      eexists. split; [exact Ht | in_window].
    + destruct (gpio_get_run bank offset w Hf) as (d & _ & _ & Ht & _).
      eexists. split; [exact Ht | in_window].
    + destruct (gpio_direction_out_run bank offset value w Hf)
        as (d & dir & _ & _ & _ & Ht & _).
      eexists. split; [exact Ht | in_window].
    + destruct (gpio_set_run bank offset value w Hf) as (d & _ & Ht & _).
      eexists. split; [exact Ht | in_window].
    + destruct (find_run a s w Hf) as (hi & lo & _ & _ & _ & Hrun).
      destruct (chip_id hi lo =? SIO_NCT610XD_ID).
      * destruct Hrun as (hi2 & lo2 & cfg & cfg2 & Ht & _).
        eexists. split; [exact Ht | in_window].
      * destruct Hrun as (Ht & _). eexists. split; [exact Ht | in_window].
  - rewrite (gpio_get_direction_busy bank offset w Hb),
      (gpio_direction_in_busy bank offset w Hb),
      (gpio_get_busy bank offset w Hb),
      (gpio_direction_out_busy bank offset value w Hb),
      (gpio_set_busy bank offset value w Hb), (find_busy a s w Hb).
    cbn [snd trace log].
    repeat split; (eexists; split; [reflexivity | in_window]).
Qed.

(** X2: when the region cannot be acquired, none of the six operations
    accesses a port: the hardware and the set of held ports are as before
    and the trace gained nothing but the refused request. *)
Theorem refused_operations_do_no_io
    (bank : nct610xd_gpio_bank) (offset value : Z) (s : nct610xd_sio) w :
  let a := addr (sio (data bank)) in
  let untouched (w' : world HW) :=
    hw w' = hw w /\ held w' = held w /\
    trace w' = trace w ++ [EvRequest a 2 false] in
  fst (superio_enter a w) = - EBUSY ->
  untouched (snd (nct610xd_gpio_get_direction bank offset w)) /\
  untouched (snd (nct610xd_gpio_direction_in bank offset w)) /\
  untouched (snd (nct610xd_gpio_get bank offset w)) /\
  untouched (snd (nct610xd_gpio_direction_out bank offset value w)) /\
  untouched (snd (nct610xd_gpio_set bank offset value w)) /\
  untouched (snd (nct610xd_find a s w)) /\
  fst (nct610xd_find a s w) = (- EBUSY, s).
Proof.
  intros a untouched Hb. subst untouched. cbv beta.
  apply superio_enter_fails in Hb.
  rewrite (gpio_get_direction_busy bank offset w Hb),
    (gpio_direction_in_busy bank offset w Hb),
    (gpio_get_busy bank offset w Hb),
    (gpio_direction_out_busy bank offset value w Hb),
    (gpio_set_busy bank offset value w Hb), (find_busy a s w Hb).
  cbn. repeat split.
Qed.

(** X3: [superio_inw] reads register [reg] and then register [reg + 1]
    through the index and data ports, and returns the first byte as the high
    byte and the second as the low byte of a 16-bit value. *)
Theorem superio_inw_reads_high_byte_first (base reg : Z) w :
  exists hi lo, (0 <= hi < 256 /\ 0 <= lo < 256) /\
    trace (snd (superio_inw base reg w)) =
      trace w ++ read_events base reg hi ++ read_events base (reg + 1) lo /\
    fst (superio_inw base reg w) = 256 * hi + lo /\
    0 <= fst (superio_inw base reg w) < 65536 /\
    held (snd (superio_inw base reg w)) = held w.
Proof.
  unfold_driver. run_driver.
  eexists. eexists. split; [| split; [| split; [| split]]].
  2: norm_trace; rewrite ?u8_s32; reflexivity.
  - split; apply u8_range.
  - apply inw_value_bytes; apply u8_range.
  - rewrite inw_value_bytes by apply u8_range.
    pose proof (u8_range (fst (bus_inb (u16 (s32 (base + 1)))
      (bus_outb (u8 reg) (u16 base) (hw w))))) as Hhi.
    match goal with
    | |- 0 <= 256 * _ + ?l < _ => assert (Hlo : 0 <= l < 256) by apply u8_range
    end.
    lia.
  - reflexivity.
Qed.

End Confinement.

Section BeyondTheBank.

Context {HW : Type} {PB : PortBus HW}.

Implicit Types w : world HW.

(** X4: an offset past the eight pins of a bank (8 to 30, where the shift is
    still defined) selects no bit of the 8-bit registers: both read callbacks
    return 0, and each writing callback writes back exactly the byte it has
    just read. *)
Theorem offset_beyond_bank_selects_no_bit
    (bank : nct610xd_gpio_bank) (offset value : Z) w :
  let a := addr (sio (data bank)) in
  fst (superio_enter a w) = 0 ->
  8 <= offset < 31 ->
  fst (nct610xd_gpio_get bank offset w) = 0 /\
  fst (nct610xd_gpio_get_direction bank offset w) = 0 /\
  (exists d,
     trace (snd (nct610xd_gpio_set bank offset value w)) =
       trace w ++ enter_events a ++ select_events a SIO_LD_GPIO
         ++ read_events a (regbase bank + 1) d
         ++ write_events a (regbase bank + 1) d ++ exit_events a) /\
  (exists dir,
     trace (snd (nct610xd_gpio_direction_in bank offset w)) =
       trace w ++ enter_events a ++ select_events a SIO_LD_GPIO
         ++ read_events a (regbase bank) dir
         ++ write_events a (regbase bank) dir ++ exit_events a) /\
  (exists d dir,
     trace (snd (nct610xd_gpio_direction_out bank offset value w)) =
       trace w ++ enter_events a ++ select_events a SIO_LD_GPIO
         ++ read_events a (regbase bank + 1) d
         ++ write_events a (regbase bank + 1) d
         ++ read_events a (regbase bank) dir
         ++ write_events a (regbase bank) dir ++ exit_events a).
Proof.
  intros a Hent Ho. apply superio_enter_result in Hent.
  refine (conj _ (conj _ (conj _ (conj _ _)))).
  - destruct (gpio_get_run bank offset w Hent) as (d & Hd & Hr & _).
    now rewrite Hr, land_beyond_byte.
  - destruct (gpio_get_direction_run bank offset w Hent)
      as (dir & Hd & Hr & _).
    now rewrite Hr, land_beyond_byte.
  - destruct (gpio_set_run bank offset value w Hent) as (d & Hd & Ht & _).
    exists d. now rewrite Ht, put_bit_beyond_byte.
  - destruct (gpio_direction_in_run bank offset w Hent)
      as (dir & Hd & _ & Ht & _).
    exists dir. rewrite Ht.
    now rewrite (put_bit_beyond_byte dir offset 1 Hd Ho : u8 _ = dir).
  - destruct (gpio_direction_out_run bank offset value w Hent)
      as (d & dir & Hd & Hdir & _ & Ht & _).
    exists d, dir. rewrite Ht, put_bit_beyond_byte by assumption.
    now rewrite (put_bit_beyond_byte dir offset 0 Hdir Ho : u8 _ = dir).
Qed.

End BeyondTheBank.

(** ** Further properties on the simulated chip *)

Lemma chip_write_at_latch (v : Z) (c : sio_chip) :
  chip_write v c (latch c) =
    if decide (latch c ∈ rdonly c) then regfile c (latch c) else v.
Proof.
  unfold chip_write. destruct (decide (latch c ∈ rdonly c)); [reflexivity |].
  apply fn_lookup_insert.
Qed.

Section Frames.

Implicit Types w : world sio_chip.

Lemma sim_get_frame (bank : nct610xd_gpio_bank) (offset : Z) w (i : Z) :
  let a := addr (sio (data bank)) in
  let w' := snd (nct610xd_gpio_get bank offset w) in
  hw_base (hw w) = u16 a -> i <> SIO_LDSEL ->
  hw_base (hw w') = u16 a /\ held w' = held w /\
  regfile (hw w') i = regfile (hw w) i.
Proof.
  intros a w' Hbase Hsel. subst w'.
  destruct (decide (region a 2 ## held w)) as [Hfree | Hbusy].
  - enter_free Hfree. fold a. open_chip w Hbase. chip_run a.
    split; [reflexivity |]. split; [now apply region_free_restored |].
    change (u8 SIO_LDSEL) with SIO_LDSEL. other_register. reflexivity.
  - rewrite (gpio_get_busy bank offset w Hbusy). now cbn.
Qed.

Lemma sim_get_direction_frame (bank : nct610xd_gpio_bank) (offset : Z) w
    (i : Z) :
  let a := addr (sio (data bank)) in
  let w' := snd (nct610xd_gpio_get_direction bank offset w) in
  hw_base (hw w) = u16 a -> i <> SIO_LDSEL ->
  hw_base (hw w') = u16 a /\ held w' = held w /\
  regfile (hw w') i = regfile (hw w) i.
Proof.
  intros a w' Hbase Hsel. subst w'.
  destruct (decide (region a 2 ## held w)) as [Hfree | Hbusy].
  - enter_free Hfree. fold a. open_chip w Hbase. chip_run a.
    split; [reflexivity |]. split; [now apply region_free_restored |].
    change (u8 SIO_LDSEL) with SIO_LDSEL. other_register. reflexivity.
  - rewrite (gpio_get_direction_busy bank offset w Hbusy). now cbn.
Qed.

Lemma sim_set_data (bank : nct610xd_gpio_bank) (offset value : Z) w :
  let a := addr (sio (data bank)) in
  let w' := snd (nct610xd_gpio_set bank offset value w) in
  let r := u8 (regbase bank + 1) in
  hw_base (hw w) = u16 a ->
  region a 2 ## held w ->
  r <> SIO_LDSEL ->
  hw_base (hw w') = u16 a /\ held w' = held w /\
  regfile (hw w') r =
    if decide (r ∈ rdonly (hw w)) then regfile (hw w) r
    else put_bit (u8 (regfile (hw w) r)) offset value.
Proof.
  intros a w' r Hbase Hfree Hsel. subst w' r.
  enter_free Hfree. fold a. open_chip w Hbase. chip_run a.
  split; [reflexivity |]. split; [now apply region_free_restored |].
  rewrite !data_index_eq, !u8_idem. change (u8 SIO_LDSEL) with SIO_LDSEL.
  etransitivity; [apply chip_write_at_latch |]. cbn [latch rdonly regfile].
  destruct (decide (u8 (regbase bank + 1) ∈ ro)).
  - other_register. reflexivity.
  - rewrite u8_small by apply put_bit_range. do 2 f_equal.
    other_register. reflexivity.
Qed.

Lemma sim_direction_in_frame (bank : nct610xd_gpio_bank) (offset : Z) w
    (i : Z) :
  let a := addr (sio (data bank)) in
  let w' := snd (nct610xd_gpio_direction_in bank offset w) in
  hw_base (hw w) = u16 a ->
  region a 2 ## held w ->
  i <> SIO_LDSEL ->
  hw_base (hw w') = u16 a /\ held w' = held w /\
  regfile (hw w') i =
    if decide (i = u8 (regbase bank)) then
      if decide (i ∈ rdonly (hw w)) then regfile (hw w) i
      else u8 (Z.lor (u8 (regfile (hw w) i)) (shl1 offset))
    else regfile (hw w) i.
Proof.
  intros a w' Hbase Hfree Hsel. subst w'.
  enter_free Hfree. fold a. open_chip w Hbase. chip_run a.
  split; [reflexivity |]. split; [now apply region_free_restored |].
  rewrite !dir_index_eq, !u8_idem. change (u8 SIO_LDSEL) with SIO_LDSEL.
  destruct (decide (i = u8 (regbase bank))) as [-> | Hne].
  - etransitivity; [apply chip_write_at_latch |]. cbn [latch rdonly regfile].
    destruct (decide (u8 (regbase bank) ∈ ro)).
    + other_register. reflexivity.
    + do 3 f_equal. other_register. reflexivity.
  - other_register. other_register. reflexivity.
Qed.

Lemma sim_direction_out_frame (bank : nct610xd_gpio_bank)
    (offset value : Z) w (i : Z) :
  let a := addr (sio (data bank)) in
  let w' := snd (nct610xd_gpio_direction_out bank offset value w) in
  hw_base (hw w) = u16 a ->
  region a 2 ## held w ->
  i <> SIO_LDSEL ->
  regfile (hw w') i =
    if decide (i = u8 (regbase bank)) then
      if decide (i ∈ rdonly (hw w)) then regfile (hw w) i
      else u8 (Z.land (u8 (regfile (hw w) i)) (Z.lnot (shl1 offset)))
    else if decide (i = u8 (regbase bank + 1)) then
      if decide (i ∈ rdonly (hw w)) then regfile (hw w) i
      else put_bit (u8 (regfile (hw w) i)) offset value
    else regfile (hw w) i.
Proof.
  intros a w' Hbase Hfree Hsel. subst w'.
  enter_free Hfree. fold a. open_chip w Hbase. chip_run a.
  rewrite !dir_index_eq, !data_index_eq, !u8_idem.
  change (u8 SIO_LDSEL) with SIO_LDSEL.
  pose proof (dir_data_index_ne (regbase bank)) as Hdd.
  destruct (decide (i = u8 (regbase bank))) as [-> | Hne].
  - etransitivity; [apply chip_write_at_latch |]. cbn [latch rdonly regfile].
    destruct (decide (u8 (regbase bank) ∈ ro)).
    + other_register. other_register. reflexivity.
    + do 3 f_equal. other_register. other_register. reflexivity.
  - other_register.
    destruct (decide (i = u8 (regbase bank + 1))) as [-> | Hne'].
    + etransitivity; [apply chip_write_at_latch |].
      cbn [latch rdonly regfile].
      destruct (decide (u8 (regbase bank + 1) ∈ ro)).
      * other_register. reflexivity.
      * rewrite u8_small by apply put_bit_range. do 2 f_equal.
        other_register. reflexivity.
    + other_register. other_register. reflexivity.
Qed.

End Frames.

Section Pins.

Implicit Types w : world sio_chip.

(** X5: on a chip whose data register keeps what is written to it,
    [nct610xd_gpio_set] of a pin 0..7 followed by [nct610xd_gpio_get] of that
    pin returns 1 for every nonzero value and 0 for value 0. *)
Theorem set_then_get_returns_level
    (bank : nct610xd_gpio_bank) (offset value : Z) w :
  let a := addr (sio (data bank)) in
  hw_base (hw w) = u16 a ->
  fst (superio_enter a w) = 0 ->
  u8 (regbase bank + 1) ∉ rdonly (hw w) ->
  u8 (regbase bank + 1) <> SIO_LDSEL ->
  0 <= offset < 8 ->
  fst (nct610xd_gpio_get bank offset
         (snd (nct610xd_gpio_set bank offset value w))) =
    if value =? 0 then 0 else 1.
Proof.
  intros a Hbase Hent Hrw Hsel Ho. apply superio_enter_result in Hent.
  destruct (sim_set_data bank offset value w Hbase Hent Hsel)
    as (Hbase' & Hheld' & Hdata).
  rewrite sim_get; [| exact Hbase' | now rewrite Hheld' | exact Hsel].
  rewrite Hdata.
  destruct (decide (u8 (regbase bank + 1) ∈ rdonly (hw w))); [contradiction |].
  rewrite u8_small by apply put_bit_range.
  rewrite land_pin, put_bit_testbit by lia.
  destruct (decide (offset = offset)) as [_ | Hne]; [| contradiction].
  assert (Hpos : 0 < 2 ^ offset) by (apply Z.pow_pos_nonneg; lia).
  destruct (value =? 0); cbn [negb]; [reflexivity |].
  destruct (Z.eqb_spec (2 ^ offset) 0); [lia | reflexivity].
Qed.

(** X6: [nct610xd_gpio_set] of one pin leaves the level read back from every
    other pin of the bank as it was. *)
Theorem set_keeps_other_pins
    (bank : nct610xd_gpio_bank) (offset value q : Z) w :
  let a := addr (sio (data bank)) in
  hw_base (hw w) = u16 a ->
  fst (superio_enter a w) = 0 ->
  u8 (regbase bank + 1) <> SIO_LDSEL ->
  0 <= offset < 8 -> 0 <= q < 8 -> q <> offset ->
  fst (nct610xd_gpio_get bank q
         (snd (nct610xd_gpio_set bank offset value w))) =
    fst (nct610xd_gpio_get bank q w).
Proof.
  intros a Hbase Hent Hsel Ho Hq Hne. apply superio_enter_result in Hent.
  destruct (sim_set_data bank offset value w Hbase Hent Hsel)
    as (Hbase' & Hheld' & Hdata).
  rewrite sim_get; [| exact Hbase' | now rewrite Hheld' | exact Hsel].
  rewrite (sim_get bank q w Hbase Hent Hsel), Hdata.
  destruct (decide (u8 (regbase bank + 1) ∈ rdonly (hw w))); [reflexivity |].
  rewrite u8_small by apply put_bit_range.
  rewrite !land_pin, put_bit_testbit by lia.
  destruct (decide (q = offset)); [contradiction | reflexivity].
Qed.

(** X7: [nct610xd_gpio_direction_in] of one pin changes neither the level
    read back from any pin of the bank nor the direction read back from any
    other pin. *)
Theorem direction_in_keeps_levels_and_other_directions
    (bank : nct610xd_gpio_bank) (offset q : Z) w :
  let a := addr (sio (data bank)) in
  let w' := snd (nct610xd_gpio_direction_in bank offset w) in
  hw_base (hw w) = u16 a ->
  fst (superio_enter a w) = 0 ->
  u8 (regbase bank) <> SIO_LDSEL ->
  u8 (regbase bank + 1) <> SIO_LDSEL ->
  0 <= offset < 8 -> 0 <= q < 8 ->
  fst (nct610xd_gpio_get bank q w') = fst (nct610xd_gpio_get bank q w) /\
  (q <> offset ->
   fst (nct610xd_gpio_get_direction bank q w') =
     fst (nct610xd_gpio_get_direction bank q w)).
Proof.
  intros a w' Hbase Hent Hdir Hdata Ho Hq. subst w'.
  apply superio_enter_result in Hent.
  pose proof (dir_data_index_ne (regbase bank)) as Hdd.
  split.
  - destruct (sim_direction_in_frame bank offset w (u8 (regbase bank + 1))
                Hbase Hent Hdata) as (Hbase' & Hheld' & Hreg).
    rewrite sim_get; [| exact Hbase' | now rewrite Hheld' | exact Hdata].
    rewrite (sim_get bank q w Hbase Hent Hdata), Hreg.
    destruct (decide (u8 (regbase bank + 1) = u8 (regbase bank)));
      [congruence | reflexivity].
  - intros Hne.
    destruct (sim_direction_in_frame bank offset w (u8 (regbase bank))
                Hbase Hent Hdir) as (Hbase' & Hheld' & Hreg).
    rewrite sim_get_direction;
      [| exact Hbase' | now rewrite Hheld' | exact Hdir].
    rewrite (sim_get_direction bank q w Hbase Hent Hdir), Hreg.
    destruct (decide (u8 (regbase bank) = u8 (regbase bank)));
      [| contradiction].
    destruct (decide (u8 (regbase bank) ∈ rdonly (hw w))); [reflexivity |].
    rewrite u8_idem, !land_pin, set_dir_bit_testbit by lia.
    destruct (decide (q = offset)); [contradiction | reflexivity].
Qed.

(** X8: [nct610xd_gpio_direction_out] of one pin leaves both the level and
    the direction read back from every other pin of the bank as they
    were. *)
Theorem direction_out_keeps_other_pins
    (bank : nct610xd_gpio_bank) (offset value q : Z) w :
  let a := addr (sio (data bank)) in
  let w' := snd (nct610xd_gpio_direction_out bank offset value w) in
  hw_base (hw w) = u16 a ->
  fst (superio_enter a w) = 0 ->
  u8 (regbase bank) <> SIO_LDSEL ->
  u8 (regbase bank + 1) <> SIO_LDSEL ->
  0 <= offset < 8 -> 0 <= q < 8 -> q <> offset ->
  fst (nct610xd_gpio_get bank q w') = fst (nct610xd_gpio_get bank q w) /\
  fst (nct610xd_gpio_get_direction bank q w') =
    fst (nct610xd_gpio_get_direction bank q w).
Proof.
  intros a w' Hbase Hent Hdir Hdata Ho Hq Hne. subst w'.
  apply superio_enter_result in Hent.
  pose proof (dir_data_index_ne (regbase bank)) as Hdd.
  destruct (sim_direction_out bank offset value w Hbase Hent)
    as (Hbase' & Hheld' & _).
  split.
  - rewrite sim_get; [| exact Hbase' | now rewrite Hheld' | exact Hdata].
    rewrite (sim_get bank q w Hbase Hent Hdata).
    rewrite (sim_direction_out_frame bank offset value w _ Hbase Hent Hdata).
    destruct (decide (u8 (regbase bank + 1) = u8 (regbase bank)));
      [congruence |].
    destruct (decide (u8 (regbase bank + 1) = u8 (regbase bank + 1)));
      [| contradiction].
    destruct (decide (u8 (regbase bank + 1) ∈ rdonly (hw w))); [reflexivity |].
    rewrite u8_small by apply put_bit_range.
    rewrite !land_pin, put_bit_testbit by lia.
    destruct (decide (q = offset)); [contradiction | reflexivity].
  - rewrite sim_get_direction;
      [| exact Hbase' | now rewrite Hheld' | exact Hdir].
    rewrite (sim_get_direction bank q w Hbase Hent Hdir).
    rewrite (sim_direction_out_frame bank offset value w _ Hbase Hent Hdir).
    destruct (decide (u8 (regbase bank) = u8 (regbase bank)));
      [| contradiction].
    destruct (decide (u8 (regbase bank) ∈ rdonly (hw w))); [reflexivity |].
    rewrite u8_idem, !land_pin, clear_dir_bit_testbit by lia.
    destruct (decide (q = offset)); [contradiction | reflexivity].
Qed.

(** X9: the two read callbacks change no register of the chip other than the
    logical-device select, whether or not they could enter; so a read can be
    repeated, and reading one pin does not disturb what is read from
    another. *)
Theorem reads_change_no_register
    (bank : nct610xd_gpio_bank) (offset q : Z) w :
  let a := addr (sio (data bank)) in
  hw_base (hw w) = u16 a ->
  (forall i, i <> SIO_LDSEL ->
     regfile (hw (snd (nct610xd_gpio_get bank offset w))) i =
       regfile (hw w) i /\
     regfile (hw (snd (nct610xd_gpio_get_direction bank offset w))) i =
       regfile (hw w) i) /\
  (fst (superio_enter a w) = 0 ->
   u8 (regbase bank) <> SIO_LDSEL -> u8 (regbase bank + 1) <> SIO_LDSEL ->
   fst (nct610xd_gpio_get bank q
          (snd (nct610xd_gpio_get bank offset w))) =
     fst (nct610xd_gpio_get bank q w) /\
   fst (nct610xd_gpio_get_direction bank q
          (snd (nct610xd_gpio_get bank offset w))) =
     fst (nct610xd_gpio_get_direction bank q w) /\
   fst (nct610xd_gpio_get bank q
          (snd (nct610xd_gpio_get_direction bank offset w))) =
     fst (nct610xd_gpio_get bank q w)).
Proof.
  intros a Hbase. split.
  - intros i Hi. split.
    + apply (sim_get_frame bank offset w i Hbase Hi).
    + apply (sim_get_direction_frame bank offset w i Hbase Hi).
  - intros Hent Hdir Hdata. apply superio_enter_result in Hent.
    destruct (sim_get_frame bank offset w (u8 (regbase bank + 1)) Hbase Hdata)
      as (Hb1 & Hh1 & Hr1).
    destruct (sim_get_frame bank offset w (u8 (regbase bank)) Hbase Hdir)
      as (_ & _ & Hr1').
    destruct (sim_get_direction_frame bank offset w (u8 (regbase bank + 1))
                Hbase Hdata) as (Hb2 & Hh2 & Hr2).
    refine (conj _ (conj _ _)).
    + rewrite sim_get; [| exact Hb1 | now rewrite Hh1 | exact Hdata].
      now rewrite (sim_get bank q w Hbase Hent Hdata), Hr1.
    + rewrite sim_get_direction; [| exact Hb1 | now rewrite Hh1 | exact Hdir].
      now rewrite (sim_get_direction bank q w Hbase Hent Hdir), Hr1'.
    + rewrite sim_get; [| exact Hb2 | now rewrite Hh2 | exact Hdata].
      now rewrite (sim_get bank q w Hbase Hent Hdata), Hr2.
Qed.

End Pins.

(** ** Registration with the platform bus *)

Ltac unfold_platform :=
  unfold register_driver_and_device, nct610xd_gpio_device_add,
    platform_driver_register, platform_driver_unregister,
    platform_device_alloc, platform_device_add_data, platform_device_add,
    platform_device_put, bind, ret;
  cbn [negb fst snd hw held plat trace log set_hw set_held].

Section Registration.

Context {HW : Type} {PB : PortBus HW}.

Implicit Types w : world HW.

Lemma find_window (a : Z) (s : nct610xd_sio) w :
  held (snd (nct610xd_find a s w)) = held w /\
  exists t, trace (snd (nct610xd_find a s w)) = trace w ++ t /\
    Forall (event_in_window a) t.
Proof.
  destruct (decide (region a 2 ## held w)) as [Hf | Hb].
  - destruct (find_run a s w Hf) as (hi & lo & _ & _ & Hh & Hrun).
    split; [exact Hh |].
    destruct (chip_id hi lo =? SIO_NCT610XD_ID).
    + destruct Hrun as (hi2 & lo2 & cfg & cfg2 & Ht & _).
      eexists. split; [exact Ht | in_window].
    + destruct Hrun as (Ht & _). eexists. split; [exact Ht | in_window].
  - rewrite (find_busy a s w Hb). cbn [snd held trace log].
    split; [reflexivity |]. eexists. split; [reflexivity | in_window].
Qed.

(** X10: [nct610xd_gpio_device_add] returns 0 exactly when the allocation
    and both additions succeed; it drops its reference to the device with
    [platform_device_put] exactly when it fails after the allocation; and it
    does nothing but platform-bus calls. *)
Theorem device_add_puts_device_on_failure (s : nct610xd_sio) w :
  let r := nct610xd_gpio_device_add s w in
  hw (snd r) = hw w /\ held (snd r) = held w /\
  (fst r = 0 <->
     device_alloc_ok (plat w) = true /\
     device_add_data_result (plat w) = 0 /\
     device_add_result (plat w) = 0) /\
  (device_alloc_ok (plat w) = false -> fst r = - ENOMEM) /\
  exists t, trace (snd r) = trace w ++ t /\
    forallb is_platform_event t = true /\
    (In EvDevicePut t <-> device_alloc_ok (plat w) = true /\ fst r <> 0).
Proof.
  intros r. subst r. destruct w as [h hd [dr ok dd da] tr].
  unfold_platform. unfold ENOMEM. cbn.
  destruct ok; cbn;
    [destruct (Z.eqb_spec dd 0) as [Hd | Hd]; cbn;
     [destruct (Z.eqb_spec da 0) as [Ha | Ha]; cbn |] |];
    (split; [reflexivity |]); (split; [reflexivity |]);
    (split; [intuition (first [congruence | discriminate | lia]) |]);
    (split; [intuition (first [congruence | discriminate | lia]) |]);
    (eexists; split; [rewrite <- ?app_assoc; reflexivity |];
     split; [reflexivity |]; cbn;
     intuition (first [congruence | discriminate | lia])).
Qed.

Lemma register_run (s : nct610xd_sio) w :
  let r := register_driver_and_device s w in
  hw (snd r) = hw w /\ held (snd r) = held w /\
  exists t, trace (snd r) = trace w ++ t /\
    forallb is_platform_event t = true /\
    (fst r = 0 ->
       t = [EvDriverRegister 0; EvDeviceAlloc true;
            EvDeviceAddData s 0; EvDeviceAdd 0]) /\
    (fst r <> 0 ->
       ¬ In (EvDeviceAdd 0) t /\
       (In (EvDriverRegister 0) t ->
        exists t0, t = t0 ++ [EvDriverUnregister]) /\
       (driver_register_result (plat w) <> 0 ->
        fst r = driver_register_result (plat w) /\
        t = [EvDriverRegister (driver_register_result (plat w))])).
Proof.
  intros r. subst r. destruct w as [h hd [dr ok dd da] tr].
  unfold_platform.
  destruct (dr =? 0) eqn:Er; destruct ok; destruct (dd =? 0) eqn:Ed;
    destruct (da =? 0) eqn:Ea;
    repeat (cbn; rewrite ?Er, ?Ed, ?Ea;
            change (- ENOMEM =? 0) with false);
    rewrite ?Z.eqb_eq, ?Z.eqb_neq in *; unfold ENOMEM in *;
    (split; [reflexivity |]); (split; [reflexivity |]);
    (eexists; split; [rewrite <- ?app_assoc; reflexivity |];
     split; [reflexivity |]; split;
     [intros Hz; first [subst; reflexivity | lia | discriminate Hz]
     | intros Hnz;
       first
         [ exfalso; lia
         | split; [| split];
           [ cbn; intuition (first [congruence | discriminate | lia])
           | intros Hin;
             first [ now eexists (_ :: _ :: _ :: _ :: _ :: [])
                   | now eexists (_ :: _ :: _ :: _ :: [])
                   | now eexists (_ :: _ :: [])
                   | exfalso; cbn in Hin;
                     intuition (first [congruence | discriminate | lia]) ]
           | intros Hdr;
             first [contradiction | lia | split; reflexivity] ] ]]).
Qed.

Lemma init_shape (sio0 : nct610xd_sio) w :
  exists w1 t,
    held w1 = held w /\ trace w1 = trace w ++ t /\
    Forall (fun e => event_in_window 0x2e e \/ event_in_window 0x4e e) t /\
    (nct610xd_gpio_init sio0 w = (- ENODEV, w1) \/
     exists s, nct610xd_gpio_init sio0 w = register_driver_and_device s w1 /\
       type s = nct610xd /\ (addr s = 0x2e \/ addr s = 0x4e)).
Proof.
  unfold nct610xd_gpio_init. rewrite bind_run.
  set (r1 := nct610xd_find 0x2e sio0 w).
  destruct (find_window 0x2e sio0 w) as (Hh1 & t1 & Ht1 & Hw1).
  fold r1 in Hh1, Ht1.
  assert (Hl : Forall (fun e => event_in_window 0x2e e \/
                                event_in_window 0x4e e) t1).
  { eapply List.Forall_impl; [| exact Hw1]. intros e He. now left. }
  destruct (Z.eqb_spec (fst (fst r1)) 0) as [Hz1 | Hnz1]; cbn [negb].
  - exists (snd r1), t1. split; [exact Hh1 |]. split; [exact Ht1 |].
    split; [exact Hl |]. right. exists (snd (fst r1)).
    split; [reflexivity |]. subst r1.
    rewrite find_success_records_address by exact Hz1. cbn. auto.
  - rewrite bind_run.
    set (r2 := nct610xd_find 0x4e (snd (fst r1)) (snd r1)).
    destruct (find_window 0x4e (snd (fst r1)) (snd r1))
      as (Hh2 & t2 & Ht2 & Hw2).
    fold r2 in Hh2, Ht2.
    exists (snd r2), (t1 ++ t2).
    split; [now rewrite Hh2 |].
    split; [now rewrite Ht2, Ht1, app_assoc |].
    split.
    { apply Forall_app. split; [exact Hl |].
      eapply List.Forall_impl; [| exact Hw2]. intros e He. now right. }
    destruct (Z.eqb_spec (fst (fst r2)) 0) as [Hz2 | Hnz2]; cbn [negb].
    + right. exists (snd (fst r2)). split; [reflexivity |]. subst r2.
      rewrite find_success_records_address by exact Hz2. cbn. auto.
    + left. reflexivity.
Qed.

Lemma window_event_not_platform (t : list event) (e : event) :
  Forall (fun e => event_in_window 0x2e e \/ event_in_window 0x4e e) t ->
  is_platform_event e = true -> ¬ In e t.
Proof.
  intros Hw He Hin. rewrite List.Forall_forall in Hw.
  specialize (Hw e Hin). destruct e; cbn in *; try discriminate He; tauto.
Qed.

(** X11: when [nct610xd_gpio_init] returns 0, the last things it did were to
    register the driver and to allocate, fill and add the platform device,
    all with success; the data given to the device is the chip type together
    with one of the two candidate addresses; before that it only touched the
    two candidate windows; and no port is left held. *)
Theorem init_success_registers_found_chip (sio0 : nct610xd_sio) w :
  fst (nct610xd_gpio_init sio0 w) = 0 ->
  held (snd (nct610xd_gpio_init sio0 w)) = held w /\
  exists s t,
    (addr s = 0x2e \/ addr s = 0x4e) /\ type s = nct610xd /\
    Forall (fun e => event_in_window 0x2e e \/ event_in_window 0x4e e) t /\
    trace (snd (nct610xd_gpio_init sio0 w)) =
      trace w ++ t ++ [EvDriverRegister 0; EvDeviceAlloc true;
                       EvDeviceAddData s 0; EvDeviceAdd 0].
Proof.
  intros Hz.
  destruct (init_shape sio0 w) as (w1 & t & Hh & Ht & Hw & [Hno | Hyes]).
  - rewrite Hno in Hz. discriminate Hz.
  - destruct Hyes as (s & Hinit & Hty & Haddr). rewrite Hinit in *.
    destruct (register_run s w1) as (_ & Hh2 & t2 & Ht2 & _ & Hok & _).
    split; [now rewrite Hh2 |].
    exists s, t. split; [exact Haddr |]. split; [exact Hty |].
    split; [exact Hw |].
    now rewrite Ht2, Ht, (Hok Hz), app_assoc.
Qed.

(** X12: when [nct610xd_gpio_init] fails, nothing stays registered: no
    platform device was added, and if the driver had been registered then
    unregistering it was the last thing done; no port is left held. *)
Theorem init_failure_leaves_nothing_registered (sio0 : nct610xd_sio) w :
  fst (nct610xd_gpio_init sio0 w) <> 0 ->
  held (snd (nct610xd_gpio_init sio0 w)) = held w /\
  exists t,
    trace (snd (nct610xd_gpio_init sio0 w)) = trace w ++ t /\
    ¬ In (EvDeviceAdd 0) t /\
    (In (EvDriverRegister 0) t -> exists t0, t = t0 ++ [EvDriverUnregister]).
Proof.
  intros Hnz.
  destruct (init_shape sio0 w) as (w1 & t & Hh & Ht & Hw & [Hno | Hyes]).
  - rewrite Hno. cbn [snd]. split; [exact Hh |]. exists t.
    split; [exact Ht |]. split.
    + now apply (window_event_not_platform t).
    + intros Hin. now apply (window_event_not_platform t) in Hin.
  - destruct Hyes as (s & Hinit & _). rewrite Hinit in *.
    destruct (register_run s w1) as (_ & Hh2 & t2 & Ht2 & _ & _ & Hfail).
    destruct (Hfail Hnz) as (Hnoadd & Hunreg & _).
    split; [now rewrite Hh2 |].
    exists (t ++ t2). split; [now rewrite Ht2, Ht, app_assoc |]. split.
    + rewrite List.in_app_iff. intros [Hin | Hin]; [| now apply Hnoadd].
      now apply (window_event_not_platform t) in Hin.
    + rewrite List.in_app_iff. intros [Hin | Hin].
      * now apply (window_event_not_platform t) in Hin.
      * destruct (Hunreg Hin) as (t0 & ->). exists (t ++ t0).
        now rewrite app_assoc.
Qed.

(** X13: whatever the hardware and the platform bus answer,
    [nct610xd_gpio_init] touches nothing but the windows at 0x2e and 0x4e
    and the platform bus, and gives back every port it took. *)
Theorem init_stays_in_candidate_windows (sio0 : nct610xd_sio) w :
  held (snd (nct610xd_gpio_init sio0 w)) = held w /\
  exists t,
    trace (snd (nct610xd_gpio_init sio0 w)) = trace w ++ t /\
    Forall init_event t.
Proof.
  destruct (init_shape sio0 w) as (w1 & t & Hh & Ht & Hw & [Hno | Hyes]).
  - rewrite Hno. cbn [snd]. split; [exact Hh |]. exists t.
    split; [exact Ht |].
    eapply List.Forall_impl; [| exact Hw]. unfold init_event. tauto.
  - destruct Hyes as (s & Hinit & _). rewrite Hinit.
    destruct (register_run s w1) as (_ & Hh2 & t2 & Ht2 & Hp & _).
    split; [now rewrite Hh2 |].
    exists (t ++ t2). split; [now rewrite Ht2, Ht, app_assoc |].
    apply Forall_app. split.
    + eapply List.Forall_impl; [| exact Hw]. unfold init_event. tauto.
    + apply List.Forall_forall. intros e He.
      rewrite List.forallb_forall in Hp. unfold init_event. auto.
Qed.

End Registration.

(** ** The platform probe *)

Lemma probe_banks_run (env : probe_env) (d : nct610xd_gpio_data)
    (banks : list nct610xd_gpio_bank) :
  forall (i : nat) (done : list nct610xd_gpio_bank),
  exists k : nat,
    (k <= length banks)%nat /\
    snd (probe_banks env d i banks done) =
      done ++ map (set_bank_data d) (firstn k banks) /\
    (forall j : nat, (j < k)%nat -> gpiochip_add_result env (i + j) = 0) /\
    (k = length banks -> fst (probe_banks env d i banks done) = 0) /\
    ((k < length banks)%nat ->
       fst (probe_banks env d i banks done) = gpiochip_add_result env (i + k)
       /\ gpiochip_add_result env (i + k) <> 0).
Proof.
  induction banks as [| b rest IH]; intros i done.
  - exists 0%nat. cbn. rewrite app_nil_r.
    repeat split; try reflexivity; intros; lia.
  - cbn [probe_banks].
    destruct (Z.eqb_spec (gpiochip_add_result env i) 0) as [Hz | Hnz];
      cbn [negb].
    + destruct (IH (S i) (done ++ [set_bank_data d b]))
        as (k & Hk & Hsnd & Hres & Hall & Hfail).
      exists (S k). cbn [length firstn map].
      split; [lia |]. split; [now rewrite Hsnd, <- app_assoc |].
      split; [| split].
      * intros j Hj. destruct j as [| j].
        -- now rewrite Nat.add_0_r.
        -- replace (i + S j)%nat with (S i + j)%nat by lia. apply Hres. lia.
      * intros Hlen. apply Hall. lia.
      * intros Hlt. replace (i + S k)%nat with (S i + k)%nat by lia.
        apply Hfail. lia.
    + exists 0%nat. cbn [length firstn map fst snd]. rewrite app_nil_r.
      split; [lia |]. split; [reflexivity |]. split; [intros; lia |].
      split; [discriminate |]. intros _. now rewrite Nat.add_0_r.
Qed.

(** X14: without memory [nct610xd_gpio_probe] returns [-ENOMEM] and
    registers nothing.  With memory and platform data of another type than
    [nct610xd] it returns [-ENODEV], sets no driver data and registers
    nothing.  With memory and the type [nct610xd] it stores the driver data
    and registers the banks of the table in order, each with its back pointer
    set, up to the first one gpiolib refuses: it returns that error and stops
    there, or returns 0 when all were registered. *)
Theorem probe_registers_banks_until_first_failure
    (env : probe_env) (platdata : sio_platdata)
    (table : list nct610xd_gpio_bank) :
  let r := nct610xd_gpio_probe env platdata table in
  let d := {| sio := {| addr := pd_addr platdata; type := nct610xd |};
              nr_bank := Z.of_nat (length table) |} in
  if kzalloc_ok env then
    if pd_type platdata =? chips_value nct610xd then
      drvdata (snd r) = Some d /\
      exists k : nat,
        (k <= length table)%nat /\
        gpiochips (snd r) = map (set_bank_data d) (firstn k table) /\
        (forall j : nat, (j < k)%nat -> gpiochip_add_result env j = 0) /\
        (k = length table -> fst r = 0) /\
        ((k < length table)%nat ->
           fst r = gpiochip_add_result env k /\ fst r <> 0)
    else
      r = (- ENODEV, {| drvdata := None; gpiochips := [] |})
  else
    r = (- ENOMEM, {| drvdata := None; gpiochips := [] |}).
Proof.
  intros r d. subst r. unfold nct610xd_gpio_probe.
  destruct (kzalloc_ok env); cbn [negb]; [| reflexivity].
  destruct (pd_type platdata =? chips_value nct610xd); [| reflexivity].
  cbn [fst snd drvdata gpiochips].
  split; [reflexivity |].
  destruct (probe_banks_run env d table 0 [])
    as (k & Hk & Hsnd & Hres & Hall & Hfail).
  exists k. split; [exact Hk |]. split; [exact Hsnd |].
  split; [exact Hres |]. split; [exact Hall |].
  intros Hlt. destruct (Hfail Hlt) as (Hr & Hnz).
  cbn [Nat.add] in Hr, Hnz. split; [exact Hr |].
  intros Heq. apply Hnz. rewrite <- Hr. exact Heq.
Qed.

(** X15: every chip [nct610xd_gpio_probe] hands to gpiolib is an entry of
    the table whose back pointer leads to the platform data, so that its
    callbacks enter the window at the address found by discovery.  With the
    driver's own table and full success that is the single bank of pins 40
    to 47 on registers 0xF0 and 0xF1. *)
Theorem probed_chips_use_discovered_address
    (env : probe_env) (platdata : sio_platdata)
    (table : list nct610xd_gpio_bank) (d0 : nct610xd_gpio_data) :
  (forall b, In b (gpiochips (snd (nct610xd_gpio_probe env platdata table))) ->
     addr (sio (data b)) = pd_addr platdata /\
     exists b0, In b0 table /\ chip_base b = chip_base b0 /\
       chip_ngpio b = chip_ngpio b0 /\ regbase b = regbase b0) /\
  (fst (nct610xd_gpio_probe env platdata (nct610xd_gpio_bank_table d0)) = 0 ->
   gpiochips (snd (nct610xd_gpio_probe env platdata
                     (nct610xd_gpio_bank_table d0))) =
     [NCT610XD_GPIO_BANK 40 8 0xF0
        {| sio := {| addr := pd_addr platdata; type := nct610xd |};
           nr_bank := 1 |}]).
Proof.
  split.
  - intros b Hin. unfold nct610xd_gpio_probe in Hin.
    destruct (kzalloc_ok env); cbn [negb snd gpiochips] in Hin;
      [| contradiction].
    destruct (pd_type platdata =? chips_value nct610xd);
      cbn [snd gpiochips] in Hin; [| contradiction].
    destruct (probe_banks_run env
                {| sio := {| addr := pd_addr platdata; type := nct610xd |};
                   nr_bank := Z.of_nat (length table) |}
                table 0 []) as (k & _ & Hsnd & _).
    rewrite Hsnd in Hin. cbn [app] in Hin.
    apply List.in_map_iff in Hin. destruct Hin as (b0 & <- & Hin0).
    split; [reflexivity |]. exists b0. split; [| now cbn].
    rewrite <- (List.firstn_skipn k table). apply List.in_or_app. now left.
  - intros Hz. unfold nct610xd_gpio_probe in *.
    destruct (kzalloc_ok env); cbn [negb] in *; [| discriminate Hz].
    destruct (pd_type platdata =? chips_value nct610xd);
      [| discriminate Hz].
    cbn [nct610xd_gpio_bank_table probe_banks length fst snd gpiochips] in *.
    destruct (Z.eqb_spec (gpiochip_add_result env 0) 0) as [_ | Hnz];
      cbn [negb fst snd app] in *.
    + reflexivity.
    + contradiction.
Qed.

(** ** The further theorems at concrete inputs *)

Lemma refused_operations_do_no_io_witness :
  let w := boot_busy chip0 0x2e in
  fst (superio_enter 0x2e w) = - EBUSY /\
  hw (snd (nct610xd_gpio_set (bank0 0x2e) 3 1 w)) = hw w /\
  fst (nct610xd_find 0x2e sio_garbage w) = (- EBUSY, sio_garbage).
Proof.
  cbv zeta.
  assert (Hb : fst (superio_enter 0x2e (boot_busy chip0 0x2e)) = - EBUSY)
    by (vm_compute; reflexivity).
  split; [exact Hb |].
  destruct (refused_operations_do_no_io (bank0 0x2e) 3 1 sio_garbage
              (boot_busy chip0 0x2e) Hb)
    as (_ & _ & _ & _ & (Hhw & _) & _ & Hfind).
  split; [exact Hhw | exact Hfind].
Defined.

Lemma offset_beyond_bank_selects_no_bit_witness :
  let w := boot chip0 in
  (fst (superio_enter 0x2e w) = 0 /\ 8 <= 12 < 31) /\
  fst (nct610xd_gpio_get (bank0 0x2e) 12 w) = 0 /\
  fst (nct610xd_gpio_get_direction (bank0 0x2e) 12 w) = 0.
Proof.
  cbv zeta.
  assert (Hent : fst (superio_enter 0x2e (boot chip0)) = 0)
    by (vm_compute; reflexivity).
  assert (Ho : 8 <= 12 < 31) by lia.
  split; [split; assumption |].
  destruct (offset_beyond_bank_selects_no_bit (bank0 0x2e) 12 1 (boot chip0)
              Hent Ho) as (Hget & Hdir & _).
  split; [exact Hget | exact Hdir].
Defined.

Lemma set_then_get_returns_level_witness :
  let bank := bank0 0x2e in
  let w := boot chip0 in
  (hw_base (hw w) = u16 0x2e /\ fst (superio_enter 0x2e w) = 0 /\
   (u8 (regbase bank + 1) ∉ rdonly (hw w)) /\
   u8 (regbase bank + 1) <> SIO_LDSEL /\ 0 <= 5 < 8) /\
  fst (nct610xd_gpio_get bank 5 (snd (nct610xd_gpio_set bank 5 7 w))) = 1.
Proof.
  cbv zeta.
  assert (Hbase : hw_base (hw (boot chip0)) = u16 0x2e) by reflexivity.
  assert (Hent : fst (superio_enter 0x2e (boot chip0)) = 0)
    by (vm_compute; reflexivity).
  assert (Hrw : u8 (regbase (bank0 0x2e) + 1) ∉ rdonly (hw (boot chip0)))
    by apply not_elem_of_empty.
  assert (Hsel : u8 (regbase (bank0 0x2e) + 1) <> SIO_LDSEL)
    by (vm_compute; discriminate).
  assert (Ho : 0 <= 5 < 8) by lia.
  split; [repeat split; first [assumption | lia] |].
  exact (set_then_get_returns_level (bank0 0x2e) 5 7 (boot chip0)
           Hbase Hent Hrw Hsel Ho).
Defined.

Lemma set_keeps_other_pins_witness :
  let bank := bank0 0x2e in
  let w := boot chip0 in
  (hw_base (hw w) = u16 0x2e /\ fst (superio_enter 0x2e w) = 0 /\
   u8 (regbase bank + 1) <> SIO_LDSEL) /\
  fst (nct610xd_gpio_get bank 2 (snd (nct610xd_gpio_set bank 5 1 w))) =
    fst (nct610xd_gpio_get bank 2 w).
Proof.
  cbv zeta.
  assert (Hbase : hw_base (hw (boot chip0)) = u16 0x2e) by reflexivity.
  assert (Hent : fst (superio_enter 0x2e (boot chip0)) = 0)
    by (vm_compute; reflexivity).
  assert (Hsel : u8 (regbase (bank0 0x2e) + 1) <> SIO_LDSEL)
    by (vm_compute; discriminate).
  split; [repeat split; first [assumption | lia] |].
  exact (set_keeps_other_pins (bank0 0x2e) 5 1 2 (boot chip0)
           Hbase Hent Hsel ltac:(lia) ltac:(lia) ltac:(lia)).
Defined.

Lemma direction_in_keeps_levels_and_other_directions_witness :
  let bank := bank0 0x2e in
  let w := boot chip0 in
  (hw_base (hw w) = u16 0x2e /\ fst (superio_enter 0x2e w) = 0 /\
   u8 (regbase bank) <> SIO_LDSEL /\ u8 (regbase bank + 1) <> SIO_LDSEL) /\
  fst (nct610xd_gpio_get bank 2
         (snd (nct610xd_gpio_direction_in bank 5 w))) =
    fst (nct610xd_gpio_get bank 2 w).
Proof.
  cbv zeta.
  assert (Hbase : hw_base (hw (boot chip0)) = u16 0x2e) by reflexivity.
  assert (Hent : fst (superio_enter 0x2e (boot chip0)) = 0)
    by (vm_compute; reflexivity).
  assert (Hdir : u8 (regbase (bank0 0x2e)) <> SIO_LDSEL)
    by (vm_compute; discriminate).
  assert (Hdata : u8 (regbase (bank0 0x2e) + 1) <> SIO_LDSEL)
    by (vm_compute; discriminate).
  split; [repeat split; first [assumption | lia] |].
  exact (proj1 (direction_in_keeps_levels_and_other_directions
                  (bank0 0x2e) 5 2 (boot chip0) Hbase Hent Hdir Hdata
                  ltac:(lia) ltac:(lia))).
Defined.

Lemma direction_out_keeps_other_pins_witness :
  let bank := bank0 0x2e in
  let w := boot chip0 in
  (hw_base (hw w) = u16 0x2e /\ fst (superio_enter 0x2e w) = 0 /\
   u8 (regbase bank) <> SIO_LDSEL /\ u8 (regbase bank + 1) <> SIO_LDSEL) /\
  fst (nct610xd_gpio_get_direction bank 2
         (snd (nct610xd_gpio_direction_out bank 5 1 w))) =
    fst (nct610xd_gpio_get_direction bank 2 w).
Proof.
  cbv zeta.
  assert (Hbase : hw_base (hw (boot chip0)) = u16 0x2e) by reflexivity.
  assert (Hent : fst (superio_enter 0x2e (boot chip0)) = 0)
    by (vm_compute; reflexivity).
  assert (Hdir : u8 (regbase (bank0 0x2e)) <> SIO_LDSEL)
    by (vm_compute; discriminate).
  assert (Hdata : u8 (regbase (bank0 0x2e) + 1) <> SIO_LDSEL)
    by (vm_compute; discriminate).
  split; [repeat split; first [assumption | lia] |].
  exact (proj2 (direction_out_keeps_other_pins (bank0 0x2e) 5 1 2
                  (boot chip0) Hbase Hent Hdir Hdata
                  ltac:(lia) ltac:(lia) ltac:(lia))).
Defined.

Lemma reads_change_no_register_witness :
  let bank := bank0 0x2e in
  let w := boot chip0 in
  hw_base (hw w) = u16 0x2e /\
  regfile (hw (snd (nct610xd_gpio_get bank 3 w))) 0xF1 = regfile (hw w) 0xF1.
Proof.
  cbv zeta.
  assert (Hbase : hw_base (hw (boot chip0)) = u16 0x2e) by reflexivity.
  split; [exact Hbase |].
  refine (proj1 (proj1 (reads_change_no_register (bank0 0x2e) 3 3 (boot chip0)
                          Hbase) 0xF1 _)).
  vm_compute. discriminate.
Defined.

Lemma init_success_registers_found_chip_witness :
  let w := boot chip0 in
  fst (nct610xd_gpio_init sio_garbage w) = 0 /\
  held (snd (nct610xd_gpio_init sio_garbage w)) = held w.
Proof.
  cbv zeta.
  assert (Hz : fst (nct610xd_gpio_init sio_garbage (boot chip0)) = 0)
    by (vm_compute; reflexivity).
  split; [exact Hz |].
  exact (proj1 (init_success_registers_found_chip sio_garbage (boot chip0)
                  Hz)).
Defined.

Lemma init_failure_leaves_nothing_registered_witness :
  let w := boot chip_stuck in
  fst (nct610xd_gpio_init sio_garbage w) <> 0 /\
  held (snd (nct610xd_gpio_init sio_garbage w)) = held w.
Proof.
  cbv zeta.
  assert (Hnz : fst (nct610xd_gpio_init sio_garbage (boot chip_stuck)) <> 0)
    by (vm_compute; discriminate).
  split; [exact Hnz |].
  exact (proj1 (init_failure_leaves_nothing_registered sio_garbage
                  (boot chip_stuck) Hnz)).
Defined.

(** The three ways out of the probe before or at the first bank. *)
Example probe_paths :
  let ok := {| kzalloc_ok := true; gpiochip_add_result := fun _ => 0 |} in
  let nomem := {| kzalloc_ok := false; gpiochip_add_result := fun _ => 0 |} in
  let table := nct610xd_gpio_bank_table
                 {| sio := sio_garbage; nr_bank := 0 |} in
  fst (nct610xd_gpio_probe ok {| pd_addr := 0x2e; pd_type := 0 |} table) = 0 /\
  nct610xd_gpio_probe ok {| pd_addr := 0x2e; pd_type := 1 |} table =
    (- ENODEV, {| drvdata := None; gpiochips := [] |}) /\
  nct610xd_gpio_probe nomem {| pd_addr := 0x2e; pd_type := 0 |} table =
    (- ENOMEM, {| drvdata := None; gpiochips := [] |}).
Proof. repeat split. Qed.
